(** * bot.py: payment gate and broadcast of a Telegram bot

    A shallow embedding of [bot.py].  The two PostgreSQL tables are finite
    maps keyed by [user_id]; the handlers are functions from the tables
    before the update to the tables after it, together with the external
    calls they made and the answer they sent.  Everything the bot cannot
    decide itself (the clock, the YooKassa replies, the Telegram replies,
    a failing database statement inside [remove_user]) is read from an
    environment record, so that every theorem quantifies over all
    behaviours of these collaborators.

    Exceptions are modelled where the code deals with them: the calls to
    the gateway and to Telegram inside [try], and the statements inside
    the transaction of [remove_user].  The other database statements and
    the answers to the user are taken to return.  The values of a payment
    object are strings, as the gateway documents them. *)

From Stdlib Require Import ZArith String List Lia.
From stdpp Require Import base option gmap strings list fin_maps pretty.

(** ** Python helpers *)

Module Py.

(** [str(n)] for an [int]: the decimal numeral, with a leading minus sign. *)
Definition str (n : Z) : string := pretty n.

(** Truth value of an [Optional[str]]: [None] and [''] are falsy. *)
Definition truthy (o : option string) : bool :=
  match o with
  | None => false
  | Some s => negb (String.eqb s "")
  end.

(** What a call gives back: the value it returns, or the text [str(e)] of
    the exception it raises. *)
Inductive result (A : Type) :=
| Raise (e : string)
| Return (a : A).
Arguments Raise {A} e.
Arguments Return {A} a.

(** [c.upper()] on one ASCII character. *)
Definition upper_ascii (c : Ascii.ascii) : Ascii.ascii :=
  let n := Ascii.nat_of_ascii c in
  if (97 <=? n)%nat && (n <=? 122)%nat then Ascii.ascii_of_nat (n - 32) else c.

(** [s.upper()], on ASCII text. *)
Fixpoint upper (s : string) : string :=
  match s with
  | EmptyString => EmptyString
  | String c r => String (upper_ascii c) (upper r)
  end.

End Py.

(** ** PostgreSQL tables *)

Module Ledger.

(** A row of [users]; the key [user_id] is the key of the map. *)
Record user_row := UserRow {
  is_subscribed : bool;
  created_at : Z;
  updated_at : Z
}.

(** A row of [payments]; the key [user_id] is the key of the map. *)
Record payment_row := PaymentRow {
  payment_id : string;
  pay_updated_at : Z
}.

(** The database behind [pool]: both tables have [user_id] as PRIMARY KEY. *)
Record db := Db {
  users : gmap Z user_row;
  payments : gmap Z payment_row
}.

(** The tables as [db_init] creates them in an empty database. *)
Definition fresh : db := Db ∅ ∅.

(** INSERT ... VALUES ($1, FALSE, $2, $2)
    ON CONFLICT (user_id) DO UPDATE SET updated_at = EXCLUDED.updated_at *)
Definition upsert_user (now : Z) (user_id : Z) (d : db) : db :=
  let row :=
    match users d !! user_id with
    | Some r => UserRow (is_subscribed r) (created_at r) now
    | None => UserRow false now now
    end in
  Db (<[user_id := row]> (users d)) (payments d).

(** INSERT ... VALUES ($1, $2, $3, $3)
    ON CONFLICT (user_id) DO UPDATE
    SET is_subscribed = EXCLUDED.is_subscribed, updated_at = EXCLUDED.updated_at *)
Definition set_subscribed (now : Z) (user_id : Z) (subscribed : bool) (d : db) : db :=
  let row :=
    match users d !! user_id with
    | Some r => UserRow subscribed (created_at r) now
    | None => UserRow subscribed now now
    end in
  Db (<[user_id := row]> (users d)) (payments d).

(** [bool(row and row["is_subscribed"])] *)
Definition get_subscribed (user_id : Z) (d : db) : bool :=
  match users d !! user_id with
  | Some r => is_subscribed r
  | None => false
  end.

(** SELECT user_id FROM users WHERE is_subscribed=TRUE.  The query has no
    ORDER BY; the rows come in the order in which the map lists them. *)
Definition get_subscribers (d : db) : list Z :=
  (filter (λ kv, is_subscribed kv.2 = true) (map_to_list (users d))).*1.

Definition count_users (d : db) : nat * nat :=
  (size (users d), length (get_subscribers d)).

(** INSERT ... VALUES ($1, $2, $3)
    ON CONFLICT (user_id) DO UPDATE
    SET payment_id = EXCLUDED.payment_id, updated_at = EXCLUDED.updated_at *)
Definition save_last_payment (now : Z) (user_id : Z) (pid : string) (d : db) : db :=
  Db (users d) (<[user_id := PaymentRow pid now]> (payments d)).

(** [str(row["payment_id"]) if row else None] *)
Definition get_last_payment (user_id : Z) (d : db) : option string :=
  payment_id <$> payments d !! user_id.

(** *** The transaction of [remove_user]

    [async with conn.transaction()] opens a transaction, runs its body on
    the connection and commits when the body returns; when a statement of
    the body or the commit raises, the transaction is rolled back and the
    exception leaves the block.  A statement is a function on the tables
    that may raise instead of returning. *)

Inductive raised := Raised.

Definition statement := db → raised + db.

(** [conn.execute(q)] with the fault of this call: the statement takes
    effect unless the call raises. *)
Definition execute (raises : bool) (q : db → db) : statement :=
  λ d, if raises then inl Raised else inr (q d).

(** Two statements one after the other; the second is not reached when the
    first raises. *)
Definition and_then (s1 s2 : statement) : statement :=
  λ d, match s1 d with
       | inl e => inl e
       | inr d1 => s2 d1
       end.

(** The faults one call of [remove_user] can meet. *)
Record faults := Faults {
  begin_raises : bool;
  first_raises : bool;
  second_raises : bool;
  commit_raises : bool
}.

Definition no_faults : faults := Faults false false false false.

(** The transaction block: the tables seen after the block are those the
    body produced when BEGIN, the body and COMMIT all went through, and
    the tables before the block otherwise. *)
Definition transaction (f : faults) (body : statement) (d : db) : db * option raised :=
  if begin_raises f then (d, Some Raised)
  else match body d with
       | inl e => (d, Some e)
       | inr d1 => if commit_raises f then (d, Some Raised) else (d1, None)
       end.

Definition delete_users (user_id : Z) (d : db) : db :=
  Db (delete user_id (users d)) (payments d).

Definition delete_payments (user_id : Z) (d : db) : db :=
  Db (users d) (delete user_id (payments d)).

(** DELETE FROM users WHERE user_id=$1; DELETE FROM payments WHERE user_id=$1
    inside one transaction.  The second component is the exception that
    leaves the function, if any. *)
Definition remove_user (f : faults) (user_id : Z) (d : db) : db * option raised :=
  transaction f
    (and_then (execute (first_raises f) (delete_users user_id))
              (execute (second_raises f) (delete_payments user_id)))
    d.

End Ledger.

(** ** Settings imported from [peremen] *)

Record config := Config {
  ADMIN_ID : Z;
  YOO_MODE : string;
  YOO_RETURN_URL : string;
  PRICE_RUB : Z;
  CURRENCY : string;
  DESCRIPTION : string
}.

(** ** YooKassa client *)

Module YooKassa.

(** The body of POST /v3/payments together with the Idempotence-Key
    header.  (Authorization and Content-Type are the same on every call.) *)
Record create_request := CreateRequest {
  idempotence_key : string;
  amount_value : string;
  amount_currency : string;
  description : string;
  return_url : string;
  payment_method : string;
  tg_user_id : string
}.

(** The keys of a payment object that the bot reads.  [None] is a key that
    is absent; [confirmation_url] stands for
    [payment["confirmation"]["confirmation_url"]]. *)
Record payment := Payment {
  id : option string;
  status : option string;
  confirmation_url : option string;
  metadata : option (gmap string string)
}.

(** What one HTTP exchange gives: a response with its status code, its
    body and what [json.loads] makes of the body, or an exception of the
    HTTP client (time-out after 20 s, connection error). *)
Inductive http_reply :=
| Response (code : Z) (text : string) (json : Py.result payment)
| ClientError (e : string).

(** [raise RuntimeError(...)] if [resp.status >= 400], else
    [json.loads(text)]. *)
Definition read_reply (r : http_reply) : Py.result payment :=
  match r with
  | ClientError e => Py.Raise e
  | Response code text json =>
      if (400 <=? code)%Z
      then Py.Raise ("YooKassa error " +:+ Py.str code +:+ ": " +:+ text)
      else json
  end.

Definition payload (cfg : config) (key : string) (user_id : Z) : create_request :=
  let method :=
    if String.eqb (Py.upper (YOO_MODE cfg)) "TEST" then "bank_card" else "sbp" in
  {| idempotence_key := key;
     amount_value := Py.str (PRICE_RUB cfg) +:+ ".00";
     amount_currency := CURRENCY cfg;
     description := DESCRIPTION cfg;
     return_url := YOO_RETURN_URL cfg;
     payment_method := method;
     tg_user_id := Py.str user_id |}.

Definition yk_create_payment (post : create_request → http_reply)
    (cfg : config) (key : string) (user_id : Z) : Py.result payment :=
  read_reply (post (payload cfg key user_id)).

Definition yk_get_payment (get : string → http_reply) (payment_id : string)
    : Py.result payment :=
  read_reply (get payment_id).

End YooKassa.

(** ** The world around one handler *)

(** One try to deliver a message to a recipient: it returns, or raises
    [TelegramForbiddenError], [TelegramRetryAfter] with its [retry_after]
    seconds, or another exception. *)
Inductive delivery :=
| Delivered
| Forbidden
| RetryAfter (retry_after : Z)
| OtherError.

#[global] Instance delivery_eq_dec : EqDecision delivery.
Proof. solve_decision. Defined.

Inductive attempt := FirstTry | SecondTry.

(** Everything a handler reads from outside while it runs. *)
Record env := Env {
  (** the value of the k-th call of [now_utc()] in this handler *)
  now_utc : nat → Z;
  (** [str(uuid.uuid4())] *)
  uuid4 : string;
  (** the gateway's replies to POST /v3/payments and GET /v3/payments/{id} *)
  yk_post : YooKassa.create_request → YooKassa.http_reply;
  yk_get : string → YooKassa.http_reply;
  (** [bot.create_chat_invite_link(...)]: the invite link, or an exception *)
  create_chat_invite_link : Py.result string;
  (** [bot.send_message(uid, text)] or [src.copy_to(chat_id=uid)]: the
      subscribers of a run are pairwise different, so that a run asks for
      each recipient and each try at most once *)
  deliver : Z → attempt → delivery;
  (** the faults that [remove_user uid] meets *)
  db_faults : Z → Ledger.faults
}.

(** The external calls a handler makes, in the order it makes them.
    Pauses are in milliseconds. *)
Inductive call :=
| PostPayment (r : YooKassa.create_request)
| GetPayment (payment_id : string)
| CreateInviteLink
| Send (uid : Z)
| Sleep (ms : Z).

(** A finished handler: the tables it leaves, the calls it made and what
    became of the handler. *)
Record ran (R : Type) := Ran {
  after : Ledger.db;
  calls : list call;
  answer : R
}.
Arguments Ran {R} after calls answer.
Arguments after {R} r.
Arguments calls {R} r.
Arguments answer {R} r.

(** ** Handlers of the payment buttons *)

Module Bot.
Import Ledger.

(** What became of a handler: the message it answered with, or the
    exception that left it.  The texts are the bot's Russian messages;
    the arguments are the values formatted into them. *)
Inductive reply :=
| Menu (subscribed : bool)
    (** the greeting or the menu, with the keyboard of [menu_kb] *)
| Toggled (subscribed : bool)
    (** subscription switched on or off *)
| PayFailed (e : string)
    (** could not create the payment, reason: e *)
| PayCreated (url payment_id : string)
    (** payment created, pay at url; Payment ID: payment_id *)
| NoPendingPayment
    (** create a payment first: press Pay *)
| GatewayError (e : string)
    (** error while checking the payment: e *)
| Confirmed
    (** payment confirmed, press Get access *)
| InProgress
    (** the payment is still being processed *)
| Failed (status : string)
    (** payment status: status; create a new payment if it did not go through *)
| OwnershipMismatch
    (** this payment is not yours *)
| NotConfirmed (status : option string)
    (** payment not confirmed yet (status: status) *)
| GrantFailed (e : string)
    (** payment confirmed, but no link could be issued, reason: e *)
| Granted (link : string)
    (** access granted, here is the link *)
| KeyError (key : string)
    (** no answer: [payment[key]] raised and the exception left the handler *).

Definition is_admin (cfg : config) (user_id : Z) : bool :=
  (user_id =? ADMIN_ID cfg)%Z.

(** [issue_invite_link(bot)] *)
Definition issue_invite_link (e : env) : Py.result string :=
  create_chat_invite_link e.

(** [str(meta.get("tg_user_id", ""))] with [meta = payment.get("metadata") or {}] *)
Definition owner (payment : YooKassa.payment) : string :=
  let meta := default ∅ (YooKassa.metadata payment) in
  default "" (meta !! "tg_user_id").

Definition cmd_start (e : env) (user_id : Z) (d : db) : ran reply :=
  let d := upsert_user (now_utc e 0) user_id d in
  let sub := get_subscribed user_id d in
  Ran d [] (Menu sub).

Definition cmd_menu (e : env) (user_id : Z) (d : db) : ran reply :=
  let d := upsert_user (now_utc e 0) user_id d in
  Ran d [] (Menu (get_subscribed user_id d)).

Definition cb_toggle_sub (e : env) (user_id : Z) (d : db) : ran reply :=
  let d := upsert_user (now_utc e 0) user_id d in
  let current := get_subscribed user_id d in
  let d := set_subscribed (now_utc e 1) user_id (negb current) d in
  Ran d [] (Toggled (negb current)).

Definition cb_pay (cfg : config) (e : env) (user_id : Z) (d : db) : ran reply :=
  let d := upsert_user (now_utc e 0) user_id d in
  let posted := [PostPayment (YooKassa.payload cfg (uuid4 e) user_id)] in
  match YooKassa.yk_create_payment (yk_post e) cfg (uuid4 e) user_id with
  | Py.Raise exn => Ran d posted (PayFailed exn)
  | Py.Return payment =>
      match YooKassa.id payment with
      | None => Ran d posted (KeyError "id")
      | Some payment_id =>
          let d := save_last_payment (now_utc e 1) user_id payment_id d in
          match YooKassa.confirmation_url payment with
          | None => Ran d posted (KeyError "confirmation_url")
          | Some confirmation_url =>
              Ran d posted (PayCreated confirmation_url payment_id)
          end
      end
  end.

Definition cb_check (e : env) (user_id : Z) (d : db) : ran reply :=
  let d := upsert_user (now_utc e 0) user_id d in
  let payment_id := get_last_payment user_id d in
  if negb (Py.truthy payment_id) then Ran d [] NoPendingPayment
  else
    let payment_id := default "" payment_id in
    let got := [GetPayment payment_id] in
    match YooKassa.yk_get_payment (yk_get e) payment_id with
    | Py.Raise exn => Ran d got (GatewayError exn)
    | Py.Return payment =>
        let status := default "unknown" (YooKassa.status payment) in
        if String.eqb status "succeeded" then Ran d got Confirmed
        else if String.eqb status "pending" || String.eqb status "waiting_for_capture"
        then Ran d got InProgress
        else Ran d got (Failed status)
    end.

Definition cb_access (e : env) (user_id : Z) (d : db) : ran reply :=
  let d := upsert_user (now_utc e 0) user_id d in
  let payment_id := get_last_payment user_id d in
  if negb (Py.truthy payment_id) then Ran d [] NoPendingPayment
  else
    let payment_id := default "" payment_id in
    let got := [GetPayment payment_id] in
    match YooKassa.yk_get_payment (yk_get e) payment_id with
    | Py.Raise exn => Ran d got (GatewayError exn)
    | Py.Return payment =>
        let status := YooKassa.status payment in
        let owner := owner payment in
        if negb (String.eqb owner "" || String.eqb owner (Py.str user_id))
        then Ran d got OwnershipMismatch
        else if negb (bool_decide (status = Some "succeeded"))
        then Ran d got (NotConfirmed status)
        else
          match issue_invite_link e with
          | Py.Raise exn => Ran d (got ++ [CreateInviteLink]) (GrantFailed exn)
          | Py.Return link => Ran d (got ++ [CreateInviteLink]) (Granted link)
          end
    end.

End Bot.

(** ** Broadcasts *)

Module Broadcast.
Import Ledger.

(** The three counters [ok], [blocked], [failed]. *)
Record tally := Tally {
  ok : nat;
  blocked : nat;
  failed : nat
}.

(** The state of a run: the counters, the tables, and the calls made so
    far (oldest first). *)
Record run := Run {
  count : tally;
  tables : db;
  sent : list call
}.

(** [ok = blocked = failed = 0] *)
Definition start (d : db) : run := Run (Tally 0 0 0) d [].

(** [asyncio.sleep(0.05)], in milliseconds *)
Definition pacing : Z := 50.

(** [asyncio.sleep(e.retry_after + 0.5)], in milliseconds *)
Definition retry_pause (retry_after : Z) : Z := (retry_after * 1000 + 500)%Z.

(** The number of recipients counted so far. *)
Definition total (c : tally) : nat := ok c + blocked c + failed c.

Definition add_ok (c : tally) : tally := Tally (ok c + 1) (blocked c) (failed c).
Definition add_blocked (c : tally) : tally := Tally (ok c) (blocked c + 1) (failed c).
Definition add_failed (c : tally) : tally := Tally (ok c) (blocked c) (failed c + 1).

(** The body of [for uid in subscribers].  The second component is the
    exception of [remove_user] that leaves the loop, if any. *)
Definition body (e : env) (uid : Z) (r : run) : run * option raised :=
  match deliver e uid FirstTry with
  | Delivered =>
      (Run (add_ok (count r)) (tables r) (sent r ++ [Send uid; Sleep pacing]), None)
  | Forbidden =>
      let '(d, exn) := remove_user (db_faults e uid) uid (tables r) in
      (Run (add_blocked (count r)) d (sent r ++ [Send uid]), exn)
  | RetryAfter retry_after =>
      let tried := sent r ++ [Send uid; Sleep (retry_pause retry_after); Send uid] in
      match deliver e uid SecondTry with
      | Delivered => (Run (add_ok (count r)) (tables r) tried, None)
      | _ => (Run (add_failed (count r)) (tables r) tried, None)
      end
  | OtherError =>
      (Run (add_failed (count r)) (tables r) (sent r ++ [Send uid]), None)
  end.

Fixpoint for_uid_in (e : env) (subscribers : list Z) (r : run) : run * option raised :=
  match subscribers with
  | [] => (r, None)
  | uid :: rest =>
      match body e uid r with
      | (r1, None) => for_uid_in e rest r1
      | (r1, Some exn) => (r1, Some exn)
      end
  end.

(** What became of a broadcast command. *)
Inductive report :=
| NoAccess
    (** the sender is not the admin *)
| Usage
    (** the command came without a text, or not as a reply *)
| NoSubscribers
    (** nobody has subscribed yet *)
| Finished (ok blocked failed : nat)
    (** broadcast finished: delivered, blocked, errors *)
| DbError
    (** no report: [remove_user] raised and the exception left the handler *).

(** The part both commands share, from [get_subscribers()] on. *)
Definition fan_out (e : env) (d : db) : ran report :=
  let subscribers := get_subscribers d in
  match subscribers with
  | [] => Ran d [] NoSubscribers
  | _ =>
      match for_uid_in e subscribers (start d) with
      | (r, None) =>
          Ran (tables r) (sent r)
              (Finished (ok (count r)) (blocked (count r)) (failed (count r)))
      | (r, Some _) => Ran (tables r) (sent r) DbError
      end
  end.

(** [parts] is [(message.text or "").split(maxsplit=1)]. *)
Definition cmd_broadcast (cfg : config) (e : env) (user_id : Z)
    (parts : list string) (d : db) : ran report :=
  if negb (Bot.is_admin cfg user_id) then Ran d [] NoAccess
  else if (length parts <? 2)%nat then Ran d [] Usage
  else fan_out e d.

(** [reply_to_message] tells whether the command is a reply. *)
Definition cmd_broadcast_here (cfg : config) (e : env) (user_id : Z)
    (reply_to_message : bool) (d : db) : ran report :=
  if negb (Bot.is_admin cfg user_id) then Ran d [] NoAccess
  else if negb reply_to_message then Ran d [] Usage
  else fan_out e d.

End Broadcast.

(** ** Scenarios *)

(** [cb_access] pressed once per environment of the list, each time on the
    tables the previous press left; the answers come in the same order. *)
Fixpoint press_access (es : list env) (user_id : Z) (d : Ledger.db)
    : Ledger.db * list Bot.reply :=
  match es with
  | [] => (d, [])
  | e :: rest =>
      let r := Bot.cb_access e user_id d in
      let '(d1, answers) := press_access rest user_id (after r) in
      (d1, answer r :: answers)
  end.

(** What [cb_access] answers once the payment is verified. *)
Definition invite_answer (e : env) : Bot.reply :=
  match Bot.issue_invite_link e with
  | Py.Raise exn => Bot.GrantFailed exn
  | Py.Return link => Bot.Granted link
  end.

(** The gateway of [e] holds, under the reference [pid], a payment that has
    succeeded and whose owner is [user_id] or nobody. *)
Definition paid_up (user_id : Z) (pid : string) (e : env) : Prop :=
  ∃ payment,
    YooKassa.yk_get_payment (yk_get e) pid = Py.Return payment
    ∧ YooKassa.status payment = Some "succeeded"
    ∧ (Bot.owner payment = "" ∨ Bot.owner payment = Py.str user_id).

(** Concrete settings, replies and tables on which the theorems below are
    exercised. *)
Module Sample.
Import Ledger.

Definition cfg : config := Config 1 "test" "https://t.me/bot" 500 "RUB" "challenge".

(** A payment object of user 42 with the given status. *)
Definition tx (status : string) : YooKassa.payment :=
  YooKassa.Payment (Some "tx-1") (Some status) (Some "https://pay/tx-1")
                   (Some {["tg_user_id" := "42"]}).

(** Recipient 1 has blocked the bot, recipient 2 is rate limited for 5 s
    and has blocked the bot by the time of the retry, recipient 3 is rate
    limited and then reachable, everybody else is reachable. *)
Definition telegram (uid : Z) (a : attempt) : delivery :=
  if (uid =? 1)%Z then Forbidden
  else if (uid =? 2)%Z then
    match a with FirstTry => RetryAfter 5 | SecondTry => Forbidden end
  else if (uid =? 3)%Z then
    match a with FirstTry => RetryAfter 5 | SecondTry => Delivered end
  else Delivered.

(** A world in which the gateway gives [reply] to every request and the
    invite link is [invite]. *)
Definition world (reply : YooKassa.http_reply) (invite : Py.result string) : env :=
  {| now_utc := λ k, (1000 + Z.of_nat k)%Z;
     uuid4 := "0f8fad5b-d9cb-469f-a165-70867728950e";
     yk_post := λ _, reply;
     yk_get := λ _, reply;
     create_chat_invite_link := invite;
     deliver := telegram;
     db_faults := λ _, no_faults |}.

Definition answers (status : string) : env :=
  world (YooKassa.Response 200 "{...}" (Py.Return (tx status)))
        (Py.Return "https://t.me/+invite").

Definition unavailable : env :=
  world (YooKassa.Response 503 "busy" (Py.Raise "Expecting value"))
        (Py.Return "https://t.me/+invite").

Definition no_invite_rights : env :=
  world (YooKassa.Response 200 "{...}" (Py.Return (tx "succeeded")))
        (Py.Raise "not enough rights").

(** A succeeded payment created before the bot wrote owner metadata. *)
Definition legacy_tx : YooKassa.payment :=
  YooKassa.Payment (Some "tx-1") (Some "succeeded") (Some "https://pay/tx-1") None.

Definition legacy : env :=
  world (YooKassa.Response 200 "{...}" (Py.Return legacy_tx))
        (Py.Return "https://t.me/+invite").

(** User 42 with a stored reference, and four subscribers 1, 2, 3, 4 of
    whom 1 and 2 have a stored reference too. *)
Definition paid : db :=
  save_last_payment 10 42 "tx-1" (upsert_user 5 42 fresh).

Definition audience : db :=
  save_last_payment 9 2 "tx-2"
    (save_last_payment 8 1 "tx-0"
       (set_subscribed 4 4 true
          (set_subscribed 3 3 true
             (set_subscribed 2 2 true
                (set_subscribed 1 1 true paid))))).

(** User 43 holding the reference of user 42's payment. *)
Definition borrowed : db := save_last_payment 11 43 "tx-1" paid.

(** A stored reference that is the empty string. *)
Definition blank : db := save_last_payment 10 42 "" (upsert_user 5 42 fresh).

End Sample.

(** ** Handlers without payment logic *)

Module Service.
Import Ledger.

(** What became of one of these handlers. *)
Inductive notice :=
| YourId (user_id : string)
    (** your user_id: user_id *)
| Stats (total subs : nat)
    (** the database: users in total, subscribers of the broadcast *)
| Support
    (** the text [SUPPORT_TEXT] *)
| Silent
    (** the handler returns without an answer *).

Definition cmd_whoami (user_id : Z) (d : db) : ran notice :=
  Ran d [] (YourId (Py.str user_id)).

Definition cmd_stats (cfg : config) (user_id : Z) (d : db) : ran notice :=
  if negb (Bot.is_admin cfg user_id) then Ran d [] Silent
  else
    let '(total, subs) := count_users d in
    Ran d [] (Stats total subs).

Definition cb_support (d : db) : ran notice :=
  Ran d [] Support.

End Service.

(** ** The dispatcher *)

Module Dispatcher.
Import Ledger.

(** The updates for which [dp] has a handler: the six commands and the
    five buttons, with what the handler reads from the update besides its
    sender.  [Unhandled] is any other update. *)
Inductive update :=
| Start
| Menu
| Whoami
| Stats
| ToggleSub
| Support
| Pay
| Check
| Access
| Broadcast (parts : list string)
| BroadcastHere (reply_to_message : bool)
| Unhandled.

(** The tables after the handler of the update has run for the sender
    [user_id] in the world [e]. *)
Definition handle (cfg : config) (e : env) (user_id : Z) (u : update) (d : db) : db :=
  match u with
  | Start => after (Bot.cmd_start e user_id d)
  | Menu => after (Bot.cmd_menu e user_id d)
  | Whoami => after (Service.cmd_whoami user_id d)
  | Stats => after (Service.cmd_stats cfg user_id d)
  | ToggleSub => after (Bot.cb_toggle_sub e user_id d)
  | Support => after (Service.cb_support d)
  | Pay => after (Bot.cb_pay cfg e user_id d)
  | Check => after (Bot.cb_check e user_id d)
  | Access => after (Bot.cb_access e user_id d)
  | Broadcast parts => after (Broadcast.cmd_broadcast cfg e user_id parts d)
  | BroadcastHere replied => after (Broadcast.cmd_broadcast_here cfg e user_id replied d)
  | Unhandled => d
  end.

(** The updates of a polling session, one after the other, each with its
    world and its sender. *)
Fixpoint replay (cfg : config) (history : list (env * Z * update)) (d : db) : db :=
  match history with
  | [] => d
  | (e, user_id, u) :: rest => replay cfg rest (handle cfg e user_id u d)
  end.

End Dispatcher.


(** The recipient gets the message in a run: at the first try, or at the
    second after a rate limit. *)
Definition reached (e : env) (uid : Z) : bool :=
  match deliver e uid FirstTry with
  | Delivered => true
  | RetryAfter _ =>
      match deliver e uid SecondTry with
      | Delivered => true
      | _ => false
      end
  | _ => false
  end.

(** ** Start-up *)

Module Startup.

(** The settings of [peremen] that only [main] reads. *)
Record secrets := Secrets {
  BOT_TOKEN : string;
  YOO_SHOP_ID : string;
  YOO_SECRET : string;
  DATABASE_URL : string
}.

(** [s.startswith(needle)] *)
Fixpoint startswith (needle s : string) : bool :=
  match needle, s with
  | EmptyString, _ => true
  | String a needle', String b s' => Ascii.eqb a b && startswith needle' s'
  | String _ _, EmptyString => false
  end.

(** [needle in s] *)
Fixpoint contains (needle s : string) : bool :=
  startswith needle s
  || match s with
     | EmptyString => false
     | String _ s' => contains needle s'
     end.

(** [not s or "PASTE_" in s] *)
Definition unset (s : string) : bool :=
  String.eqb s "" || contains "PASTE_" s.

(** A setting that [main] lets through: a text that is not empty and in
    which "PASTE_" does not occur. *)
Definition filled (s : string) : Prop :=
  s ≠ "" ∧ ∀ before behind, s ≠ before +:+ "PASTE_" +:+ behind.

(** The four [RuntimeError]s of [main]. *)
Inductive refusal :=
| NoBotToken
| NoShopCredentials
| NoAdminId
| NoDatabaseUrl.

(** The checks of [main] before it opens the pool: the first that fails
    raises. *)
Definition main (cfg : config) (s : secrets) : option refusal :=
  if unset (BOT_TOKEN s) then Some NoBotToken
  else if unset (YOO_SHOP_ID s) || unset (YOO_SECRET s) then Some NoShopCredentials
  else if (ADMIN_ID cfg =? 123456789)%Z then Some NoAdminId
  else if String.eqb (DATABASE_URL s) "" then Some NoDatabaseUrl
  else None.

End Startup.

(** ** Proof automation *)

(** Case analysis on the comparison [s == t] of two strings. *)
Ltac string_case s t :=
  destruct (String.eqb_spec s t) as [-> | ?]; simpl.

(** * Theorems *)

(** ** The tables *)

Section LedgerFacts.
Import Ledger.
Implicit Types (d : db) (now user_id u : Z).

Lemma payments_upsert_user now user_id d :
  payments (upsert_user now user_id d) = payments d.
Proof. reflexivity. Qed.

Lemma get_last_payment_upsert_user now user_id u d :
  get_last_payment u (upsert_user now user_id d) = get_last_payment u d.
Proof. reflexivity. Qed.

Lemma users_upsert_user_ne now user_id u d :
  u ≠ user_id → users (upsert_user now user_id d) !! u = users d !! u.
Proof. intros Hne. unfold upsert_user; simpl. by rewrite lookup_insert_ne. Qed.

Lemma users_upsert_user_eq now user_id d :
  users (upsert_user now user_id d) !! user_id =
    Some match users d !! user_id with
         | Some r => UserRow (is_subscribed r) (created_at r) now
         | None => UserRow false now now
         end.
Proof. unfold upsert_user; simpl. by rewrite lookup_insert_eq. Qed.

Lemma get_subscribed_upsert_user now user_id u d :
  get_subscribed u (upsert_user now user_id d) = get_subscribed u d.
Proof.
  unfold get_subscribed. destruct (decide (u = user_id)) as [->|Hne].
  - rewrite users_upsert_user_eq. by destruct (users d !! user_id).
  - by rewrite users_upsert_user_ne.
Qed.

Lemma users_save_last_payment now user_id pid d :
  users (save_last_payment now user_id pid d) = users d.
Proof. reflexivity. Qed.

Lemma get_subscribed_save_last_payment now user_id pid u d :
  get_subscribed u (save_last_payment now user_id pid d) = get_subscribed u d.
Proof. reflexivity. Qed.

Lemma get_last_payment_save_eq now user_id pid d :
  get_last_payment user_id (save_last_payment now user_id pid d) = Some pid.
Proof. unfold get_last_payment, save_last_payment; simpl. by rewrite lookup_insert_eq. Qed.

Lemma payments_save_ne now user_id pid u d :
  u ≠ user_id → payments (save_last_payment now user_id pid d) !! u = payments d !! u.
Proof. intros Hne. unfold save_last_payment; simpl. by rewrite lookup_insert_ne. Qed.

(** A call of [remove_user] either commits both deletions or raises and
    leaves the tables as they were. *)
Lemma remove_user_cases f user_id d :
  remove_user f user_id d = (delete_payments user_id (delete_users user_id d), None)
  ∨ remove_user f user_id d = (d, Some Raised).
Proof.
  unfold remove_user, transaction, and_then, execute.
  destruct f as [[] [] [] []]; simpl; auto.
Qed.

Lemma remove_user_no_faults user_id d :
  remove_user no_faults user_id d =
    (delete_payments user_id (delete_users user_id d), None).
Proof. reflexivity. Qed.

Lemma remove_user_returns f user_id d d1 :
  remove_user f user_id d = (d1, None) →
  d1 = delete_payments user_id (delete_users user_id d).
Proof. destruct (remove_user_cases f user_id d) as [-> | ->]; congruence. Qed.

(** The subscriber list has no repetition: [user_id] is a key. *)
Lemma get_subscribers_NoDup d : NoDup (get_subscribers d).
Proof.
  unfold get_subscribers.
  eapply sublist_NoDup; [apply (NoDup_fst_map_to_list (users d))|].
  apply fmap_sublist, sublist_filter.
Qed.

Lemma elem_of_get_subscribers d u :
  u ∈ get_subscribers d ↔ get_subscribed u d = true.
Proof.
  unfold get_subscribers, get_subscribed. rewrite list_elem_of_fmap. split.
  - intros [[k r] [-> [Hsub Hin]%list_elem_of_filter]]. simpl in *.
    apply elem_of_map_to_list in Hin. by rewrite Hin.
  - destruct (users d !! u) as [r|] eqn:Hu; [|done]. intros Hsub.
    exists (u, r). split; [done|]. apply list_elem_of_filter. split; [done|].
    by apply elem_of_map_to_list.
Qed.

End LedgerFacts.

(** C8.  [remove_user] is all or nothing: whatever statement of it fails,
    either it returns and the user's row and the user's payment row are
    both gone (every other row being as before), or it raises and both
    tables are exactly as they were. *)
Theorem remove_user_atomic (f : Ledger.faults) (user_id : Z) (d : Ledger.db) :
  let '(d1, exn) := Ledger.remove_user f user_id d in
  (exn = None
   ∧ Ledger.users d1 !! user_id = None
   ∧ Ledger.payments d1 !! user_id = None
   ∧ ∀ u, u ≠ user_id →
       Ledger.users d1 !! u = Ledger.users d !! u
       ∧ Ledger.payments d1 !! u = Ledger.payments d !! u)
  ∨ (exn = Some Ledger.Raised ∧ d1 = d).
Proof.
  destruct (remove_user_cases f user_id d) as [-> | ->]; [left | right; done].
  split; [done|]. simpl. rewrite !lookup_delete_eq. do 2 (split; [done|]).
  intros u Hne. by rewrite !lookup_delete_ne.
Qed.

(** A failure of the second DELETE leaves subscriber 1 with both rows; a
    run without failure removes both and keeps the rows of subscriber 2. *)
Lemma remove_user_atomic_witness :
  Ledger.remove_user (Ledger.Faults false false true false) 1 Sample.audience
    = (Sample.audience, Some Ledger.Raised)
  ∧ Ledger.users (Ledger.remove_user Ledger.no_faults 1 Sample.audience).1 !! 2%Z
    = Ledger.users Sample.audience !! 2%Z.
Proof.
  split; [reflexivity|].
  pose proof (remove_user_atomic Ledger.no_faults 1 Sample.audience) as Hatomic.
  rewrite remove_user_no_faults in *. simpl.
  destruct Hatomic as [(_ & _ & _ & Hothers) | [Hexn _]].
  - apply (Hothers 2%Z). lia.
  - discriminate Hexn.
Defined.

(** ** The payment handlers *)

Section HandlerFacts.
Import Ledger Bot.
Implicit Types (d : db) (e : env) (user_id u : Z).

(** Every payment handler leaves the [users] table as its first statement,
    [upsert_user], made it. *)
Lemma users_cb_pay cfg e user_id d :
  users (after (cb_pay cfg e user_id d)) = users (upsert_user (now_utc e 0) user_id d).
Proof. unfold cb_pay. by repeat case_match. Qed.

Lemma after_cb_check e user_id d :
  after (cb_check e user_id d) = upsert_user (now_utc e 0) user_id d.
Proof. unfold cb_check. by repeat case_match. Qed.

Lemma after_cb_access e user_id d :
  after (cb_access e user_id d) = upsert_user (now_utc e 0) user_id d.
Proof. unfold cb_access. by repeat case_match. Qed.

Lemma get_subscribed_users_eq d1 d2 u :
  users d1 = users d2 → get_subscribed u d1 = get_subscribed u d2.
Proof. unfold get_subscribed. by intros ->. Qed.

(** The reference a handler finds is the one stored before the handler
    started, and it is used only when it is not empty. *)
Lemma truthy_Some pid : pid ≠ "" → Py.truthy (Some pid) = true.
Proof. intros Hne. simpl. by destruct (String.eqb_spec pid ""). Qed.

Lemma truthy_false o : Py.truthy o = false ↔ o = None ∨ o = Some "".
Proof.
  destruct o as [s|]; simpl.
  - destruct (String.eqb_spec s "") as [->|Hne]; simpl.
    + split; [by right | done].
    + split; [done | by intros [? | [= ?]]].
  - split; [by left | done].
Qed.

(** The one button that changes the flag: it flips the caller's. *)
Lemma get_subscribed_cb_toggle_sub e user_id d :
  get_subscribed user_id (after (cb_toggle_sub e user_id d))
  = negb (get_subscribed user_id d).
Proof.
  unfold cb_toggle_sub. simpl. rewrite get_subscribed_upsert_user.
  unfold get_subscribed at 1, set_subscribed. simpl. rewrite lookup_insert_eq.
  by case_match.
Qed.

(** The decimal numeral of an [int] is never empty, and different numbers
    have different numerals. *)
Lemma pretty_N_go_nonempty (x : N) s : s ≠ "" → pretty_N_go x s ≠ "".
Proof.
  revert s. induction (N.lt_wf_0 x) as [x _ IH]; intros s Hs.
  assert (x = 0 ∨ 0 < x)%N as [-> | Hpos] by lia.
  - by rewrite pretty_N_go_0.
  - rewrite pretty_N_go_step by done. apply IH; [by apply N.div_lt | done].
Qed.

Lemma str_nonempty (n : Z) : Py.str n ≠ "".
Proof.
  unfold Py.str, pretty, pretty_Z. destruct n as [|p|p]; [done| |done].
  unfold pretty, pretty_positive, pretty, pretty_N.
  rewrite decide_False by done.
  rewrite pretty_N_go_step by done. by apply pretty_N_go_nonempty.
Qed.

Lemma str_inj (m n : Z) : Py.str m = Py.str n → m = n.
Proof. apply pretty_Z_inj. Qed.

End HandlerFacts.

(** C10.  [upsert_user] on an existing row keeps [is_subscribed] (and
    [created_at]) and sets [updated_at]; it creates a row with
    [is_subscribed = FALSE] only when there was none; it touches no other
    row.  Hence /start, /menu and the buttons pay, check and access leave
    the subscription status of every user as it was. *)
Theorem upsert_user_keeps_subscription :
  (∀ now user_id d r,
      Ledger.users d !! user_id = Some r →
      Ledger.users (Ledger.upsert_user now user_id d) !! user_id =
        Some (Ledger.UserRow (Ledger.is_subscribed r) (Ledger.created_at r) now))
  ∧ (∀ now user_id d,
      Ledger.users d !! user_id = None →
      Ledger.users (Ledger.upsert_user now user_id d) !! user_id =
        Some (Ledger.UserRow false now now))
  ∧ (∀ now user_id d u,
      u ≠ user_id →
      Ledger.users (Ledger.upsert_user now user_id d) !! u = Ledger.users d !! u)
  ∧ (∀ cfg e user_id d u,
      Ledger.get_subscribed u (after (Bot.cmd_start e user_id d)) = Ledger.get_subscribed u d
      ∧ Ledger.get_subscribed u (after (Bot.cmd_menu e user_id d)) = Ledger.get_subscribed u d
      ∧ Ledger.get_subscribed u (after (Bot.cb_pay cfg e user_id d)) = Ledger.get_subscribed u d
      ∧ Ledger.get_subscribed u (after (Bot.cb_check e user_id d)) = Ledger.get_subscribed u d
      ∧ Ledger.get_subscribed u (after (Bot.cb_access e user_id d)) = Ledger.get_subscribed u d).
Proof.
  split; [|split; [|split]].
  - intros now user_id d r Hr. by rewrite users_upsert_user_eq, Hr.
  - intros now user_id d Hr. by rewrite users_upsert_user_eq, Hr.
  - intros. by apply users_upsert_user_ne.
  - intros cfg e user_id d u. repeat split.
    + apply get_subscribed_upsert_user.
    + apply get_subscribed_upsert_user.
    + rewrite (get_subscribed_users_eq _ _ u (users_cb_pay cfg e user_id d)).
      apply get_subscribed_upsert_user.
    + rewrite after_cb_check. apply get_subscribed_upsert_user.
    + rewrite after_cb_access. apply get_subscribed_upsert_user.
Qed.

(** Subscriber 1 stays subscribed and keeps its creation time; a new user
    starts unsubscribed. *)
Lemma upsert_user_keeps_subscription_witness :
  Ledger.users (Ledger.upsert_user 77 1 Sample.audience) !! 1%Z
    = Some (Ledger.UserRow true 1 77)
  ∧ Ledger.users (Ledger.upsert_user 77 1 Ledger.fresh) !! 1%Z
    = Some (Ledger.UserRow false 77 77)
  ∧ Ledger.users (Ledger.upsert_user 77 1 Sample.audience) !! 2%Z
    = Ledger.users Sample.audience !! 2%Z.
Proof.
  destruct upsert_user_keeps_subscription as (Hold & Hnew & Hother & _).
  split; [|split].
  - apply (Hold 77%Z 1%Z Sample.audience (Ledger.UserRow true 1 1)).
    vm_compute. reflexivity.
  - apply (Hnew 77%Z 1%Z Ledger.fresh). vm_compute. reflexivity.
  - apply (Hother 77%Z 1%Z Sample.audience 2%Z). lia.
Defined.

(** C5, as the code has it.  [cb_check] never writes to [payments]; in
    [users] it does exactly the upsert of the calling user, whatever it
    answers: the rows of all other users and the subscription status of
    every user are as before. *)
Theorem cb_check_frame (e : env) (user_id : Z) (d : Ledger.db) :
  let r := Bot.cb_check e user_id d in
  Ledger.payments (after r) = Ledger.payments d
  ∧ Ledger.users (after r) = Ledger.users (Ledger.upsert_user (now_utc e 0) user_id d)
  ∧ (∀ u, Ledger.get_subscribed u (after r) = Ledger.get_subscribed u d)
  ∧ (∀ u, u ≠ user_id → Ledger.users (after r) !! u = Ledger.users d !! u).
Proof.
  simpl. rewrite after_cb_check. repeat split.
  - intros u. apply get_subscribed_upsert_user.
  - intros u Hne. by apply users_upsert_user_ne.
Qed.

Lemma cb_check_frame_witness :
  Ledger.users (after (Bot.cb_check (Sample.answers "pending") 42 Sample.audience)) !! 1%Z
  = Ledger.users Sample.audience !! 1%Z.
Proof.
  apply (cb_check_frame (Sample.answers "pending") 42 Sample.audience). lia.
Defined.

(** C5, as stated, fails: the first check of a user nobody has seen yet
    adds a row to [users]. *)
Lemma cb_check_writes_users :
  Ledger.users (after (Bot.cb_check (Sample.answers "pending") 42 Ledger.fresh))
  ≠ Ledger.users Ledger.fresh.
Proof.
  intros Heq. apply (f_equal (λ m, m !! 42%Z)) in Heq.
  vm_compute in Heq. discriminate Heq.
Qed.

(** C1, as the code has it.  [cb_check] answers that there is no pending
    payment exactly when the user has no stored reference or the stored
    reference is the empty string.  Otherwise it asks the gateway for the
    stored reference, once, and when the gateway returns a payment it
    answers by its status (a missing status reads "unknown"): confirmed
    for "succeeded", in progress for "pending" and "waiting_for_capture",
    failed with that status for everything else. *)
Theorem cb_check_outcome (e : env) (user_id : Z) (d : Ledger.db) :
  let r := Bot.cb_check e user_id d in
  (answer r = Bot.NoPendingPayment ↔
     Ledger.get_last_payment user_id d = None
     ∨ Ledger.get_last_payment user_id d = Some "")
  ∧ ∀ pid payment,
      Ledger.get_last_payment user_id d = Some pid →
      pid ≠ "" →
      YooKassa.yk_get_payment (yk_get e) pid = Py.Return payment →
      calls r = [GetPayment pid]
      ∧ let status := default "unknown" (YooKassa.status payment) in
        (status = "succeeded" → answer r = Bot.Confirmed)
        ∧ (status = "pending" ∨ status = "waiting_for_capture" →
           answer r = Bot.InProgress)
        ∧ (status ≠ "succeeded" → status ≠ "pending" →
           status ≠ "waiting_for_capture" → answer r = Bot.Failed status).
Proof.
  simpl. unfold Bot.cb_check.
  rewrite get_last_payment_upsert_user.
  destruct (Py.truthy (Ledger.get_last_payment user_id d)) eqn:Htruthy; simpl.
  - split.
    + split.
      * repeat case_match; discriminate.
      * intros Hnone%truthy_false. congruence.
    + intros pid payment -> Hpid Hget. simpl. rewrite Hget. simpl.
      generalize (default "unknown" (YooKassa.status payment)). intros status.
      string_case status "succeeded".
      { repeat split; [by intros [[=] | [=]] | congruence]. }
      string_case status "pending".
      { repeat split; congruence. }
      string_case status "waiting_for_capture".
      { repeat split; congruence. }
      repeat split; [congruence | by intros [? | ?]].
  - split.
    + split; [intros _; by apply truthy_false | done].
    + intros pid payment Hstored Hpid _. rewrite Hstored in Htruthy.
      by rewrite truthy_Some in Htruthy.
Qed.

(** After the gateway has moved the payment of user 42 to "succeeded", the
    check is confirmed. *)
Lemma cb_check_outcome_witness :
  calls (Bot.cb_check (Sample.answers "succeeded") 42 Sample.paid) = [GetPayment "tx-1"]
  ∧ answer (Bot.cb_check (Sample.answers "succeeded") 42 Sample.paid) = Bot.Confirmed.
Proof.
  destruct (cb_check_outcome (Sample.answers "succeeded") 42 Sample.paid)
    as [_ Hstatus].
  destruct (Hstatus "tx-1" (Sample.tx "succeeded")) as (Hcalls & Hok & _).
  - vm_compute. reflexivity.
  - discriminate.
  - vm_compute. reflexivity.
  - split; [exact Hcalls | apply Hok; reflexivity].
Defined.

(** C1, as stated, fails: with the empty string stored as the reference of
    user 42, a reference is stored and the check still answers that there
    is no pending payment. *)
Lemma cb_check_blank_reference :
  ¬ (answer (Bot.cb_check (Sample.answers "succeeded") 42 Sample.blank)
       = Bot.NoPendingPayment
     ↔ Ledger.get_last_payment 42 Sample.blank = None).
Proof.
  intros [Hnone _].
  assert (Hanswer : answer (Bot.cb_check (Sample.answers "succeeded") 42 Sample.blank)
                    = Bot.NoPendingPayment) by (vm_compute; reflexivity).
  specialize (Hnone Hanswer). vm_compute in Hnone. discriminate Hnone.
Qed.

Section PaymentFacts.
Import Ledger Bot.
Implicit Types (d : db) (e : env) (user_id u : Z).

(** When the create call raises, [cb_pay] reports the exception and stops
    before [save_last_payment]. *)
Lemma cb_pay_raise cfg e user_id d exn :
  YooKassa.yk_create_payment (yk_post e) cfg (uuid4 e) user_id = Py.Raise exn →
  answer (cb_pay cfg e user_id d) = PayFailed exn
  ∧ payments (after (cb_pay cfg e user_id d)) = payments d.
Proof. intros Hcreate. unfold cb_pay. by rewrite Hcreate. Qed.

(** When the create call returns a payment with an id, the id is stored
    for the caller, and for nobody else. *)
Lemma cb_pay_return cfg e user_id d payment pid :
  YooKassa.yk_create_payment (yk_post e) cfg (uuid4 e) user_id = Py.Return payment →
  YooKassa.id payment = Some pid →
  get_last_payment user_id (after (cb_pay cfg e user_id d)) = Some pid
  ∧ ∀ u, u ≠ user_id →
      payments (after (cb_pay cfg e user_id d)) !! u = payments d !! u.
Proof.
  intros Hcreate Hid. unfold cb_pay. rewrite Hcreate, Hid.
  destruct (YooKassa.confirmation_url payment); simpl;
    (split; [apply get_last_payment_save_eq | intros u Hne; by apply payments_save_ne]).
Qed.

(** A reference that is stored and not empty is looked up at the gateway;
    the answer of [cb_access] is then decided by the payment found. *)
Lemma cb_access_found e user_id d pid payment :
  get_last_payment user_id d = Some pid →
  pid ≠ "" →
  YooKassa.yk_get_payment (yk_get e) pid = Py.Return payment →
  cb_access e user_id d =
    let d1 := upsert_user (now_utc e 0) user_id d in
    if negb (String.eqb (owner payment) "" || String.eqb (owner payment) (Py.str user_id))
    then Ran d1 [GetPayment pid] OwnershipMismatch
    else if negb (bool_decide (YooKassa.status payment = Some "succeeded"))
    then Ran d1 [GetPayment pid] (NotConfirmed (YooKassa.status payment))
    else Ran d1 [GetPayment pid; CreateInviteLink] (invite_answer e).
Proof.
  intros Hstored Hpid Hget. unfold cb_access, invite_answer.
  rewrite get_last_payment_upsert_user, Hstored, truthy_Some by done.
  simpl. rewrite Hget. simpl. by repeat case_match.
Qed.

Lemma cb_access_paid_up e user_id d pid :
  get_last_payment user_id d = Some pid →
  pid ≠ "" →
  paid_up user_id pid e →
  answer (cb_access e user_id d) = invite_answer e.
Proof.
  intros Hstored Hpid (payment & Hget & Hstatus & Howner).
  rewrite (cb_access_found e user_id d pid payment) by done. simpl.
  rewrite Hstatus, bool_decide_true by done.
  destruct Howner as [-> | ->]; simpl; [done|].
  by rewrite String.eqb_refl, orb_true_r.
Qed.

(** A payment that carries the id of another user is refused, and no
    invite link is asked for. *)
Lemma cb_access_other_user e user_id other d pid payment :
  get_last_payment user_id d = Some pid →
  pid ≠ "" →
  YooKassa.yk_get_payment (yk_get e) pid = Py.Return payment →
  owner payment = Py.str other →
  other ≠ user_id →
  cb_access e user_id d =
    Ran (upsert_user (now_utc e 0) user_id d) [GetPayment pid] OwnershipMismatch.
Proof.
  intros Hstored Hpid Hget Howner Hother.
  rewrite (cb_access_found e user_id d pid payment) by done. simpl.
  rewrite Howner.
  destruct (String.eqb_spec (Py.str other) "") as [Hempty | _].
  { by apply str_nonempty in Hempty. }
  destruct (String.eqb_spec (Py.str other) (Py.str user_id)) as [Hsame | _]; [|done].
  by apply str_inj in Hsame.
Qed.

(** The empty reference of the counterexample to C1 is what [cb_pay]
    stores when the gateway returns a payment whose id is empty. *)
Example blank_is_stored_by_cb_pay :
  let created := YooKassa.Payment (Some "") (Some "pending") (Some "https://pay") None in
  let e := Sample.world (YooKassa.Response 200 "{...}" (Py.Return created))
                        (Py.Return "https://t.me/+invite") in
  get_last_payment 42 (after (cb_pay Sample.cfg e 42 fresh))
  = get_last_payment 42 Sample.blank.
Proof. vm_compute. done. Qed.

End PaymentFacts.

(** C2.  When the gateway answers the create call with a status of 400 or
    more, [cb_pay] tells the user the gateway's status and body word for
    word and writes nothing to [payments]; the same holds for every other
    exception of the create call.  When the create call returns a payment,
    its id becomes the stored reference of the caller, replacing whatever
    was stored, and no other user's reference changes. *)
Theorem cb_pay_persists_only_on_success
    (cfg : config) (e : env) (user_id : Z) (d : Ledger.db) :
  let r := Bot.cb_pay cfg e user_id d in
  let request := YooKassa.payload cfg (uuid4 e) user_id in
  (∀ code text json,
      yk_post e request = YooKassa.Response code text json →
      (400 ≤ code)%Z →
      answer r = Bot.PayFailed ("YooKassa error " +:+ Py.str code +:+ ": " +:+ text)
      ∧ Ledger.payments (after r) = Ledger.payments d)
  ∧ (∀ exn,
      YooKassa.yk_create_payment (yk_post e) cfg (uuid4 e) user_id = Py.Raise exn →
      answer r = Bot.PayFailed exn
      ∧ Ledger.payments (after r) = Ledger.payments d)
  ∧ (∀ code text payment pid,
      yk_post e request = YooKassa.Response code text (Py.Return payment) →
      (code < 400)%Z →
      YooKassa.id payment = Some pid →
      Ledger.get_last_payment user_id (after r) = Some pid
      ∧ ∀ u, u ≠ user_id →
          Ledger.payments (after r) !! u = Ledger.payments d !! u).
Proof.
  simpl. split; [|split].
  - intros code text json Hpost Hcode. apply cb_pay_raise.
    unfold YooKassa.yk_create_payment, YooKassa.read_reply. rewrite Hpost.
    by rewrite (proj2 (Z.leb_le 400 code) Hcode).
  - intros exn. apply cb_pay_raise.
  - intros code text payment pid Hpost Hcode Hid.
    apply (cb_pay_return cfg e user_id d payment pid); [|done].
    unfold YooKassa.yk_create_payment, YooKassa.read_reply. rewrite Hpost.
    by rewrite (proj2 (Z.leb_gt 400 code) Hcode).
Qed.

(** A 503 of the gateway is reported and leaves the reference "tx-1" of
    user 42 in place; a created payment "tx-1" becomes the reference of a
    user who had none. *)
Lemma cb_pay_persists_only_on_success_witness :
  (answer (Bot.cb_pay Sample.cfg Sample.unavailable 42 Sample.paid)
     = Bot.PayFailed "YooKassa error 503: busy"
   ∧ Ledger.payments (after (Bot.cb_pay Sample.cfg Sample.unavailable 42 Sample.paid))
     = Ledger.payments Sample.paid)
  ∧ Ledger.get_last_payment 7
      (after (Bot.cb_pay Sample.cfg (Sample.answers "pending") 7 Sample.paid))
    = Some "tx-1".
Proof.
  split.
  - destruct (cb_pay_persists_only_on_success Sample.cfg Sample.unavailable 42 Sample.paid)
      as (Herr & _ & _).
    apply (Herr 503%Z "busy" (Py.Raise "Expecting value")); [reflexivity | lia].
  - destruct (cb_pay_persists_only_on_success Sample.cfg (Sample.answers "pending") 7
                Sample.paid) as (_ & _ & Hok).
    apply (Hok 200%Z "{...}" (Sample.tx "pending") "tx-1"); [reflexivity | lia | reflexivity].
Defined.

(** C3.  Let the gateway return a payment for the stored reference of the
    caller.  If the payment's owner metadata is not empty and is not the
    caller's id, [cb_access] answers that the payment is not the caller's
    and never asks for an invite link: its only call is the look-up.  If
    the owner metadata is empty, the ownership test passes whoever the
    caller is: the answer is the one for a payment of the caller's own,
    by the status alone. *)
Theorem cb_access_ownership
    (e : env) (user_id : Z) (d : Ledger.db) (pid : string)
    (payment : YooKassa.payment) :
  Ledger.get_last_payment user_id d = Some pid →
  pid ≠ "" →
  YooKassa.yk_get_payment (yk_get e) pid = Py.Return payment →
  let r := Bot.cb_access e user_id d in
  (Bot.owner payment ≠ "" →
   Bot.owner payment ≠ Py.str user_id →
   answer r = Bot.OwnershipMismatch
   ∧ calls r = [GetPayment pid]
   ∧ CreateInviteLink ∉ calls r)
  ∧ (Bot.owner payment = "" →
     answer r ≠ Bot.OwnershipMismatch
     ∧ (YooKassa.status payment = Some "succeeded" → answer r = invite_answer e)
     ∧ (YooKassa.status payment ≠ Some "succeeded" →
        answer r = Bot.NotConfirmed (YooKassa.status payment))).
Proof.
  intros Hstored Hpid Hget. simpl.
  rewrite (cb_access_found e user_id d pid payment) by done. simpl. split.
  - intros Hempty Hother.
    destruct (String.eqb_spec (Bot.owner payment) ""); [done|].
    destruct (String.eqb_spec (Bot.owner payment) (Py.str user_id)); [done|]. simpl.
    repeat split. by intros ?%list_elem_of_singleton.
  - intros ->. simpl. case_bool_decide as Hstatus; simpl.
    + repeat split; [|done]. unfold invite_answer. by case_match.
    + repeat split; done.
Qed.

(** User 43 presents the payment of user 42 and is refused without an
    invite link being asked for; a payment without owner metadata passes
    for user 43. *)
Lemma cb_access_ownership_witness :
  (answer (Bot.cb_access (Sample.answers "succeeded") 43 Sample.borrowed)
     = Bot.OwnershipMismatch
   ∧ CreateInviteLink ∉ calls (Bot.cb_access (Sample.answers "succeeded") 43 Sample.borrowed))
  ∧ answer (Bot.cb_access Sample.legacy 43 Sample.borrowed)
    = Bot.Granted "https://t.me/+invite".
Proof.
  split.
  - destruct (cb_access_ownership (Sample.answers "succeeded") 43 Sample.borrowed
                "tx-1" (Sample.tx "succeeded")) as [Hmismatch _].
    + vm_compute. reflexivity.
    + discriminate.
    + vm_compute. reflexivity.
    + destruct Hmismatch as (Hanswer & _ & Hcalls).
      * vm_compute. discriminate.
      * vm_compute. discriminate.
      * exact (conj Hanswer Hcalls).
  - destruct (cb_access_ownership Sample.legacy 43 Sample.borrowed
                "tx-1" Sample.legacy_tx) as [_ Hunowned].
    + vm_compute. reflexivity.
    + discriminate.
    + vm_compute. reflexivity.
    + destruct Hunowned as (_ & Hgranted & _); [reflexivity|].
      apply Hgranted. reflexivity.
Defined.

(** C4.  Let the user's stored reference point to a payment that has
    succeeded and is the user's own (or nobody's) whenever the gateway is
    asked.  Then however often [cb_access] is pressed in succession, every
    press is answered by the invite link when the link can be issued and
    by the reason when it cannot, whatever happened at the presses before;
    and [payments] is the same table after all presses as before the
    first. *)
Theorem cb_access_repeatable
    (es : list env) (user_id : Z) (d : Ledger.db) (pid : string) :
  Ledger.get_last_payment user_id d = Some pid →
  pid ≠ "" →
  Forall (paid_up user_id pid) es →
  Ledger.payments (press_access es user_id d).1 = Ledger.payments d
  ∧ (press_access es user_id d).2 = invite_answer <$> es.
Proof.
  intros Hstored Hpid Hpaid. revert d Hstored.
  induction Hpaid as [|e es He _ IH]; intros d Hstored; [done|].
  simpl. destruct (press_access es user_id _) as [d1 answers] eqn:Hrest. simpl.
  specialize (IH (after (Bot.cb_access e user_id d))).
  rewrite Hrest, after_cb_access in IH. simpl in IH.
  destruct IH as [Hpayments Hanswers]; [done|].
  split; [done|]. by rewrite Hanswers, (cb_access_paid_up e user_id d pid).
Qed.

(** Three presses for user 42: a link, a refusal for lack of rights in the
    channel, and a link again; the reference is still "tx-1". *)
Lemma cb_access_repeatable_witness :
  let es := [Sample.answers "succeeded"; Sample.no_invite_rights;
             Sample.answers "succeeded"] in
  Ledger.payments (press_access es 42 Sample.paid).1 = Ledger.payments Sample.paid
  ∧ (press_access es 42 Sample.paid).2
    = [Bot.Granted "https://t.me/+invite"; Bot.GrantFailed "not enough rights";
       Bot.Granted "https://t.me/+invite"].
Proof.
  intros es.
  assert (Hstored : Ledger.get_last_payment 42 Sample.paid = Some "tx-1")
    by (vm_compute; reflexivity).
  assert (Hpid : "tx-1" ≠ "") by discriminate.
  assert (Hpaid : Forall (paid_up 42 "tx-1") es).
  { repeat constructor;
      (exists (Sample.tx "succeeded"); repeat split; try (vm_compute; reflexivity);
       right; vm_compute; reflexivity). }
  exact (cb_access_repeatable es 42 Sample.paid "tx-1" Hstored Hpid Hpaid).
Defined.

(** ** The broadcast loop *)

Section BroadcastFacts.
Import Ledger Broadcast.
Implicit Types (d : db) (e : env) (uid u : Z) (r : run).

(** One recipient, when [remove_user] does not raise: exactly one counter
    goes up by one, and it is [blocked] exactly when the first try was
    forbidden, in which case both rows of the recipient are deleted. *)
Lemma body_returns e uid r :
  (deliver e uid FirstTry = Forbidden → db_faults e uid = no_faults) →
  ∃ r1, body e uid r = (r1, None)
    ∧ total (count r1) = total (count r) + 1
    ∧ blocked (count r1) =
        blocked (count r) + (if decide (deliver e uid FirstTry = Forbidden) then 1 else 0)
    ∧ tables r1 =
        (if decide (deliver e uid FirstTry = Forbidden)
         then delete_payments uid (delete_users uid (tables r)) else tables r).
Proof.
  intros Hdb. unfold body, total.
  destruct (deliver e uid FirstTry) as [| |retry_after|] eqn:Hfirst.
  - eexists. split; [done|]. simpl. repeat split; lia.
  - rewrite Hdb, remove_user_no_faults by done.
    eexists. split; [done|]. simpl. repeat split; lia.
  - destruct (deliver e uid SecondTry);
      (eexists; split; [done|]; simpl; repeat split; lia).
  - eexists. split; [done|]. simpl. repeat split; lia.
Qed.

(** One recipient, whatever [remove_user] does: the tables change only by
    the deletion of a recipient whose first try was forbidden. *)
Lemma body_tables e uid r r1 exn :
  body e uid r = (r1, exn) →
  tables r1 = tables r
  ∨ (deliver e uid FirstTry = Forbidden
     ∧ tables r1 = delete_payments uid (delete_users uid (tables r))).
Proof.
  unfold body. destruct (deliver e uid FirstTry) eqn:Hfirst.
  - intros [= <- _]. by left.
  - destruct (remove_user_cases (db_faults e uid) uid (tables r)) as [-> | ->];
      intros [= <- _]; [right | left]; done.
  - destruct (deliver e uid SecondTry); intros [= <- _]; by left.
  - intros [= <- _]. by left.
Qed.

Lemma for_uid_in_keeps e subscribers r0 r exn u :
  deliver e u FirstTry ≠ Forbidden →
  for_uid_in e subscribers r0 = (r, exn) →
  users (tables r) !! u = users (tables r0) !! u
  ∧ payments (tables r) !! u = payments (tables r0) !! u.
Proof.
  intros Hu. revert r0.
  induction subscribers as [|uid rest IH]; intros r0; simpl.
  - by intros [= <- _].
  - destruct (body e uid r0) as [r1 [x|]] eqn:Hbody.
    + intros [= <- _].
      destruct (body_tables _ _ _ _ _ Hbody) as [-> | [Hforbidden ->]]; [done|].
      simpl. rewrite !lookup_delete_ne by congruence. done.
    + intros Hrest. destruct (IH _ Hrest) as [-> ->].
      destruct (body_tables _ _ _ _ _ Hbody) as [-> | [Hforbidden ->]]; [done|].
      simpl. rewrite !lookup_delete_ne by congruence. done.
Qed.

(** A deleted row stays deleted: the loop never inserts. *)
Lemma for_uid_in_gone e subscribers r0 r exn u :
  users (tables r0) !! u = None →
  payments (tables r0) !! u = None →
  for_uid_in e subscribers r0 = (r, exn) →
  users (tables r) !! u = None ∧ payments (tables r) !! u = None.
Proof.
  revert r0. induction subscribers as [|uid rest IH]; intros r0 Husers Hpayments; simpl.
  - by intros [= <- _].
  - assert (Hstep : ∀ r1 x, body e uid r0 = (r1, x) →
              users (tables r1) !! u = None ∧ payments (tables r1) !! u = None).
    { intros r1 x Hbody.
      destruct (body_tables _ _ _ _ _ Hbody) as [-> | [_ ->]]; [done|].
      simpl. by rewrite !lookup_delete_None; auto. }
    destruct (body e uid r0) as [r1 [x|]] eqn:Hbody.
    + intros [= <- _]. by eapply Hstep.
    + intros Hrest. destruct (Hstep r1 None eq_refl). by eapply IH.
Qed.

(** The whole loop, from any state. *)
Lemma for_uid_in_returns e subscribers r0 :
  (∀ uid, uid ∈ subscribers → deliver e uid FirstTry = Forbidden →
          db_faults e uid = no_faults) →
  ∃ r, for_uid_in e subscribers r0 = (r, None)
    ∧ total (count r) = total (count r0) + length subscribers
    ∧ blocked (count r) =
        blocked (count r0)
        + length (filter (λ uid, deliver e uid FirstTry = Forbidden) subscribers)
    ∧ ∀ uid, uid ∈ subscribers → deliver e uid FirstTry = Forbidden →
        users (tables r) !! uid = None ∧ payments (tables r) !! uid = None.
Proof.
  revert r0. induction subscribers as [|uid rest IH]; intros r0 Hdb.
  - exists r0. simpl. split; [done|]. split; [lia|]. split; [lia|].
    intros u Hin. by apply elem_of_nil in Hin.
  - destruct (body_returns e uid r0) as (r1 & Hbody & Htotal & Hblocked & Htables).
    { apply Hdb. left. }
    destruct (IH r1) as (r & Hrest & Htotal' & Hblocked' & Hgone).
    { intros u Hin. apply Hdb. by right. }
    exists r. simpl. rewrite Hbody. split; [done|]. split; [lia|]. split.
    + rewrite filter_cons. rewrite Hblocked', Hblocked.
      destruct (decide (deliver e uid FirstTry = Forbidden)); simpl; lia.
    + intros u [-> | Hin]%elem_of_cons Hforbidden; [|by apply Hgone].
      rewrite decide_True in Htables by done.
      eapply for_uid_in_gone; [| |exact Hrest]; rewrite Htables; simpl;
        by rewrite lookup_delete_eq.
Qed.

End BroadcastFacts.

(** C6.  A run over a snapshot of subscribers in which [remove_user] does
    not raise comes to its end with [ok + blocked + failed] equal to the
    number of recipients in the snapshot; [blocked] is the number of
    recipients whose first try was forbidden, one for each; and each of
    them has neither a row in [users] nor one in [payments] afterwards. *)
Theorem broadcast_counts_add_up (e : env) (subscribers : list Z) (d : Ledger.db) :
  (∀ uid, uid ∈ subscribers → deliver e uid FirstTry = Forbidden →
          db_faults e uid = Ledger.no_faults) →
  ∃ r, Broadcast.for_uid_in e subscribers (Broadcast.start d) = (r, None)
    ∧ Broadcast.ok (Broadcast.count r) + Broadcast.blocked (Broadcast.count r)
        + Broadcast.failed (Broadcast.count r) = length subscribers
    ∧ Broadcast.blocked (Broadcast.count r) =
        length (filter (λ uid, deliver e uid FirstTry = Forbidden) subscribers)
    ∧ ∀ uid, uid ∈ subscribers → deliver e uid FirstTry = Forbidden →
        Ledger.users (Broadcast.tables r) !! uid = None
        ∧ Ledger.payments (Broadcast.tables r) !! uid = None.
Proof.
  intros Hdb.
  destruct (for_uid_in_returns e subscribers (Broadcast.start d) Hdb)
    as (r & Hrun & Htotal & Hblocked & Hgone).
  exists r. split; [done|]. split; [|split; [|done]].
  - unfold Broadcast.total in Htotal. simpl in Htotal. lia.
  - rewrite Hblocked. simpl. lia.
Qed.

(** The four subscribers of the sample: two are reached, one fails, and
    user 1, who has blocked the bot, is counted in [blocked] and loses
    both rows. *)
Lemma broadcast_counts_add_up_witness :
  ∃ r, Broadcast.for_uid_in (Sample.answers "pending")
         (Ledger.get_subscribers Sample.audience) (Broadcast.start Sample.audience)
       = (r, None)
    ∧ Broadcast.ok (Broadcast.count r) + Broadcast.blocked (Broadcast.count r)
        + Broadcast.failed (Broadcast.count r) = 4
    ∧ Broadcast.blocked (Broadcast.count r) = 1
    ∧ Ledger.users (Broadcast.tables r) !! 1%Z = None
    ∧ Ledger.payments (Broadcast.tables r) !! 1%Z = None.
Proof.
  destruct (broadcast_counts_add_up (Sample.answers "pending")
              (Ledger.get_subscribers Sample.audience) Sample.audience)
    as (r & Hrun & Htotal & Hblocked & Hgone).
  - intros uid _ _. reflexivity.
  - exists r. split; [exact Hrun|]. split; [exact Htotal|]. split; [exact Hblocked|].
    apply Hgone.
    + apply elem_of_get_subscribers. vm_compute. reflexivity.
    + reflexivity.
Defined.

(** C7.  At any point of a run, a recipient whose first try is answered by
    [TelegramRetryAfter] causes exactly these calls, in this order and
    with nothing in between: the send, a pause of [retry_after] seconds
    and half a second more, and one second send to the same recipient.
    When the second send is delivered the recipient is counted in [ok];
    when it fails in any way the recipient is counted in [failed]; in
    both cases the tables are untouched and the loop goes on with the
    next recipient. *)
Theorem rate_limited_retried_once
    (e : env) (uid retry_after : Z) (rest : list Z) (r : Broadcast.run) :
  deliver e uid FirstTry = RetryAfter retry_after →
  let tried :=
    Broadcast.sent r
      ++ [Send uid; Sleep (retry_after * 1000 + 500)%Z; Send uid] in
  (deliver e uid SecondTry = Delivered →
   Broadcast.for_uid_in e (uid :: rest) r =
     Broadcast.for_uid_in e rest
       (Broadcast.Run (Broadcast.add_ok (Broadcast.count r)) (Broadcast.tables r) tried))
  ∧ (deliver e uid SecondTry ≠ Delivered →
     Broadcast.for_uid_in e (uid :: rest) r =
       Broadcast.for_uid_in e rest
         (Broadcast.Run (Broadcast.add_failed (Broadcast.count r)) (Broadcast.tables r)
                        tried)).
Proof.
  intros Hfirst. simpl. unfold Broadcast.body, Broadcast.retry_pause. rewrite Hfirst.
  split; intros Hsecond.
  - by rewrite Hsecond.
  - by destruct (deliver e uid SecondTry).
Qed.

(** Recipient 3 is rate limited for 5 s and then reached: the run waits
    5.5 s, sends again and counts the recipient as delivered. *)
Lemma rate_limited_retried_once_witness :
  Broadcast.for_uid_in (Sample.answers "pending") [3%Z] (Broadcast.start Sample.audience)
  = (Broadcast.Run (Broadcast.Tally 1 0 0) Sample.audience
       [Send 3; Sleep 5500; Send 3], None)
  ∧ Broadcast.for_uid_in (Sample.answers "pending") [2%Z] (Broadcast.start Sample.audience)
  = (Broadcast.Run (Broadcast.Tally 0 0 1) Sample.audience
       [Send 2; Sleep 5500; Send 2], None).
Proof.
  split.
  - destruct (rate_limited_retried_once (Sample.answers "pending") 3 5 []
                (Broadcast.start Sample.audience)) as [Hdelivered _]; [reflexivity|].
    apply Hdelivered. reflexivity.
  - destruct (rate_limited_retried_once (Sample.answers "pending") 2 5 []
                (Broadcast.start Sample.audience)) as [_ Hfailed]; [reflexivity|].
    apply Hfailed. discriminate.
Defined.

(** C9.  A recipient whose first try is rate limited and whose retry is
    forbidden is counted in [failed]; [blocked] is not increased and
    [remove_user] is not called: the step leaves the tables as they were,
    and at the end of the run, however it ends, the recipient's rows in
    [users] and [payments] are the rows it had at the start.  The same
    holds for every recipient whose first try was not forbidden: rows are
    deleted only for a block seen at the first try. *)
Theorem forbidden_retry_is_a_failure (e : env) (uid retry_after : Z) :
  deliver e uid FirstTry = RetryAfter retry_after →
  deliver e uid SecondTry = Forbidden →
  (∀ rest r,
      Broadcast.for_uid_in e (uid :: rest) r =
        Broadcast.for_uid_in e rest
          (Broadcast.Run
             (Broadcast.Tally (Broadcast.ok (Broadcast.count r))
                              (Broadcast.blocked (Broadcast.count r))
                              (Broadcast.failed (Broadcast.count r) + 1))
             (Broadcast.tables r)
             (Broadcast.sent r
                ++ [Send uid; Sleep (Broadcast.retry_pause retry_after); Send uid])))
  ∧ (∀ subscribers d r exn,
      Broadcast.for_uid_in e subscribers (Broadcast.start d) = (r, exn) →
      Ledger.users (Broadcast.tables r) !! uid = Ledger.users d !! uid
      ∧ Ledger.payments (Broadcast.tables r) !! uid = Ledger.payments d !! uid)
  ∧ (∀ u subscribers d r exn,
      deliver e u FirstTry ≠ Forbidden →
      Broadcast.for_uid_in e subscribers (Broadcast.start d) = (r, exn) →
      Ledger.users (Broadcast.tables r) !! u = Ledger.users d !! u
      ∧ Ledger.payments (Broadcast.tables r) !! u = Ledger.payments d !! u).
Proof.
  intros Hfirst Hsecond. split; [|split].
  - intros rest r. simpl. unfold Broadcast.body. by rewrite Hfirst, Hsecond.
  - intros subscribers d r exn Hrun.
    apply (for_uid_in_keeps e subscribers (Broadcast.start d) r exn uid); [|done].
    by rewrite Hfirst.
  - intros u subscribers d r exn Hu Hrun.
    by apply (for_uid_in_keeps e subscribers (Broadcast.start d) r exn u).
Qed.

(** Recipient 2 of the sample is rate limited and has blocked the bot by
    the time of the retry: after the whole broadcast it is still a
    subscriber with its reference "tx-2". *)
Lemma forbidden_retry_is_a_failure_witness :
  let finished :=
    Broadcast.for_uid_in (Sample.answers "pending")
      (Ledger.get_subscribers Sample.audience) (Broadcast.start Sample.audience) in
  Ledger.get_subscribed 2 (Broadcast.tables finished.1) = true
  ∧ Ledger.get_last_payment 2 (Broadcast.tables finished.1) = Some "tx-2".
Proof.
  intros finished.
  destruct (forbidden_retry_is_a_failure (Sample.answers "pending") 2 5)
    as (_ & Hkept & _); [reflexivity | reflexivity |].
  destruct (Hkept (Ledger.get_subscribers Sample.audience) Sample.audience
              finished.1 finished.2) as [Husers Hpayments].
  - apply surjective_pairing.
  - unfold Ledger.get_subscribed, Ledger.get_last_payment.
    rewrite Husers, Hpayments. vm_compute. done.
Defined.

(** ** The broadcast commands *)

Section CommandFacts.
Import Ledger Broadcast.
Implicit Types (d : db) (e : env) (uid : Z) (r : run).

Lemma body_total e uid r r1 exn :
  body e uid r = (r1, exn) → total (count r1) = total (count r) + 1.
Proof.
  unfold body, total.
  destruct (deliver e uid FirstTry); [| |destruct (deliver e uid SecondTry)|];
    try destruct (remove_user _ _ _); intros [= <- _]; simpl; lia.
Qed.

Lemma for_uid_in_total e subscribers r0 r :
  for_uid_in e subscribers r0 = (r, None) →
  total (count r) = total (count r0) + length subscribers.
Proof.
  revert r0. induction subscribers as [|uid rest IH]; intros r0; simpl.
  - intros [= <-]. lia.
  - destruct (body e uid r0) as [r1 [x|]] eqn:Hbody; [done|].
    intros Hrest%IH. apply body_total in Hbody. lia.
Qed.

(** The report that both commands send counts every subscriber of the
    snapshot once. *)
Lemma fan_out_report e d n_ok n_blocked n_failed :
  answer (fan_out e d) = Finished n_ok n_blocked n_failed →
  n_ok + n_blocked + n_failed = length (get_subscribers d).
Proof.
  unfold fan_out. destruct (get_subscribers d) as [|uid rest] eqn:Hsubs; [done|].
  destruct (for_uid_in e (uid :: rest) (start d)) as [r [x|]] eqn:Hrun; [done|].
  intros [= <- <- <-]. apply for_uid_in_total in Hrun.
  unfold total in Hrun. simpl in Hrun. simpl. lia.
Qed.

Lemma cmd_broadcast_report cfg e user_id parts d n_ok n_blocked n_failed :
  answer (cmd_broadcast cfg e user_id parts d) = Finished n_ok n_blocked n_failed →
  n_ok + n_blocked + n_failed = length (get_subscribers d).
Proof.
  unfold cmd_broadcast. repeat case_match; try done. apply fan_out_report.
Qed.

Lemma cmd_broadcast_here_report cfg e user_id replied d n_ok n_blocked n_failed :
  answer (cmd_broadcast_here cfg e user_id replied d) = Finished n_ok n_blocked n_failed →
  n_ok + n_blocked + n_failed = length (get_subscribers d).
Proof.
  unfold cmd_broadcast_here. repeat case_match; try done. apply fan_out_report.
Qed.

(** Only the admin starts a broadcast. *)
Lemma cmd_broadcast_admin_only cfg e user_id parts d :
  user_id ≠ ADMIN_ID cfg →
  cmd_broadcast cfg e user_id parts d = Ran d [] NoAccess.
Proof.
  intros Hne. unfold cmd_broadcast, Bot.is_admin.
  by rewrite (proj2 (Z.eqb_neq _ _) Hne).
Qed.

(** The scenario of the specification: user 42 pays, checks while the
    payment is pending, checks again after it has succeeded, and gets the
    link with a single request for an invite. *)
Example scenario_user_42 :
  let d1 := after (Bot.cb_pay Sample.cfg (Sample.answers "pending") 42 fresh) in
  get_last_payment 42 d1 = Some "tx-1"
  ∧ answer (Bot.cb_check (Sample.answers "pending") 42 d1) = Bot.InProgress
  ∧ answer (Bot.cb_check (Sample.answers "succeeded") 42 d1) = Bot.Confirmed
  ∧ answer (Bot.cb_access (Sample.answers "succeeded") 42 d1)
    = Bot.Granted "https://t.me/+invite"
  ∧ calls (Bot.cb_access (Sample.answers "succeeded") 42 d1)
    = [GetPayment "tx-1"; CreateInviteLink].
Proof. vm_compute. done. Qed.

(** The sample broadcast, call by call, when the snapshot lists the
    subscribers as 1, 2, 3, 4; the report is the same in whatever order
    the database lists them. *)
Example sample_run :
  for_uid_in (Sample.answers "pending") [1; 2; 3; 4]%Z (start Sample.audience)
  = (Run (Tally 2 1 1) (delete_payments 1 (delete_users 1 Sample.audience))
         [Send 1; Send 2; Sleep 5500; Send 2; Send 3; Sleep 5500; Send 3;
          Send 4; Sleep 50],
     None).
Proof. vm_compute. done. Qed.

Example sample_broadcast :
  answer (cmd_broadcast Sample.cfg (Sample.answers "pending") 1 ["/broadcast"; "start"]
            Sample.audience)
  = Finished 2 1 1.
Proof. vm_compute. done. Qed.

End CommandFacts.

(** * Further properties of the code *)

(** ** Subscriptions and references in the tables *)

Section TableProperties.
Import Ledger.
Implicit Types (d : db) (now user_id u v : Z).

Lemma users_set_subscribed_ne now user_id b v d :
  v ≠ user_id → users (set_subscribed now user_id b d) !! v = users d !! v.
Proof. intros Hne. unfold set_subscribed; simpl. by rewrite lookup_insert_ne. Qed.

Lemma get_subscribed_set_subscribed_eq now user_id b d :
  get_subscribed user_id (set_subscribed now user_id b d) = b.
Proof.
  unfold get_subscribed, set_subscribed; simpl. rewrite lookup_insert_eq.
  by destruct (users d !! user_id).
Qed.

Lemma get_subscribed_set_subscribed_ne now user_id b v d :
  v ≠ user_id →
  get_subscribed v (set_subscribed now user_id b d) = get_subscribed v d.
Proof. intros Hne. unfold get_subscribed. by rewrite users_set_subscribed_ne. Qed.

Lemma db_eq d1 d2 : users d1 = users d2 → payments d1 = payments d2 → d1 = d2.
Proof. destruct d1, d2; simpl; by intros -> ->. Qed.

Lemma delete_gone user_id d :
  users d !! user_id = None → payments d !! user_id = None →
  delete_payments user_id (delete_users user_id d) = d.
Proof.
  intros Husers Hpayments. apply db_eq; simpl; by rewrite delete_id.
Qed.

Lemma get_subscribed_delete user_id v d :
  get_subscribed v (delete_payments user_id (delete_users user_id d))
  = if decide (v = user_id) then false else get_subscribed v d.
Proof.
  unfold get_subscribed; simpl. case_decide as Hv.
  - subst. by rewrite lookup_delete_eq.
  - by rewrite lookup_delete_ne.
Qed.

Lemma length_get_subscribers_le d : length (get_subscribers d) ≤ size (users d).
Proof.
  unfold get_subscribers. rewrite length_fmap, <-length_map_to_list.
  apply length_filter.
Qed.

End TableProperties.

(** X1.  [set_subscribed] followed by [get_subscribed] for the same user
    gives the flag that was set, whether the user had a row or not; the
    time of creation of an existing row stays; no other user's row and no
    payment reference changes. *)
Theorem set_subscribed_round_trip (now user_id : Z) (b : bool) (d : Ledger.db) :
  let d1 := Ledger.set_subscribed now user_id b d in
  Ledger.get_subscribed user_id d1 = b
  ∧ (∀ r, Ledger.users d !! user_id = Some r →
       Ledger.users d1 !! user_id = Some (Ledger.UserRow b (Ledger.created_at r) now))
  ∧ (∀ v, v ≠ user_id → Ledger.users d1 !! v = Ledger.users d !! v)
  ∧ Ledger.payments d1 = Ledger.payments d.
Proof.
  simpl. split; [apply get_subscribed_set_subscribed_eq|]. split; [|split; [|done]].
  - intros r Hr. unfold Ledger.set_subscribed; simpl. by rewrite lookup_insert_eq, Hr.
  - intros v Hne. by apply users_set_subscribed_ne.
Qed.

(** Subscriber 1 of the sample unsubscribes: the row keeps its creation
    time 1, and subscriber 2 is not concerned. *)
Lemma set_subscribed_round_trip_witness :
  Ledger.users (Ledger.set_subscribed 50 1 false Sample.audience) !! 1%Z
    = Some (Ledger.UserRow false 1 50)
  ∧ Ledger.users (Ledger.set_subscribed 50 1 false Sample.audience) !! 2%Z
    = Ledger.users Sample.audience !! 2%Z.
Proof.
  destruct (set_subscribed_round_trip 50 1 false Sample.audience)
    as (_ & Hrow & Hothers & _).
  split.
  - apply (Hrow (Ledger.UserRow true 1 1)). vm_compute. reflexivity.
  - apply Hothers. lia.
Defined.

(** X2.  [save_last_payment] followed by [get_last_payment] for the same
    user gives the reference that was saved, whatever was stored before;
    a user who had a reference still has one row, not two; no other
    user's reference and no row of [users] changes. *)
Theorem last_payment_round_trip (now user_id : Z) (pid : string) (d : Ledger.db) :
  let d1 := Ledger.save_last_payment now user_id pid d in
  Ledger.get_last_payment user_id d1 = Some pid
  ∧ (is_Some (Ledger.payments d !! user_id) →
     size (Ledger.payments d1) = size (Ledger.payments d))
  ∧ (∀ v, v ≠ user_id → Ledger.get_last_payment v d1 = Ledger.get_last_payment v d)
  ∧ Ledger.users d1 = Ledger.users d.
Proof.
  simpl. split; [apply get_last_payment_save_eq|]. split; [|split; [|done]].
  - intros Hrow. unfold Ledger.save_last_payment; simpl.
    by apply map_size_insert_Some.
  - intros v Hne. unfold Ledger.get_last_payment. by rewrite payments_save_ne.
Qed.

(** User 42 of the sample pays again: still one row for 42, and the
    reference of user 1 is as before. *)
Lemma last_payment_round_trip_witness :
  size (Ledger.payments (Ledger.save_last_payment 60 42 "tx-9" Sample.audience))
    = size (Ledger.payments Sample.audience)
  ∧ Ledger.get_last_payment 1 (Ledger.save_last_payment 60 42 "tx-9" Sample.audience)
    = Ledger.get_last_payment 1 Sample.audience.
Proof.
  destruct (last_payment_round_trip 60 42 "tx-9" Sample.audience)
    as (_ & Hsize & Hothers & _).
  split.
  - apply Hsize. vm_compute. eexists. reflexivity.
  - apply Hothers. lia.
Defined.

(** X3.  The snapshot of [get_subscribers] lists exactly the users whose
    flag is set, each of them once, and it is never longer than the
    [users] table. *)
Theorem get_subscribers_exact (d : Ledger.db) :
  NoDup (Ledger.get_subscribers d)
  ∧ (∀ u, u ∈ Ledger.get_subscribers d ↔ Ledger.get_subscribed u d = true)
  ∧ length (Ledger.get_subscribers d) ≤ size (Ledger.users d).
Proof.
  split; [apply get_subscribers_NoDup|]. split.
  - intros u. apply elem_of_get_subscribers.
  - apply length_get_subscribers_le.
Qed.

(** X4.  Once [remove_user] has returned, the user reads as not
    subscribed and without reference and is in no later snapshot; for
    every other user the flag, the reference and the membership in the
    snapshot are as before; and removing the user again, with or without
    a database failure, changes nothing. *)
Theorem remove_user_forgets (f : Ledger.faults) (user_id : Z) (d d1 : Ledger.db) :
  Ledger.remove_user f user_id d = (d1, None) →
  Ledger.get_subscribed user_id d1 = false
  ∧ Ledger.get_last_payment user_id d1 = None
  ∧ (user_id ∉ Ledger.get_subscribers d1)
  ∧ (∀ v, v ≠ user_id →
       Ledger.get_subscribed v d1 = Ledger.get_subscribed v d
       ∧ Ledger.get_last_payment v d1 = Ledger.get_last_payment v d
       ∧ (v ∈ Ledger.get_subscribers d1 ↔ v ∈ Ledger.get_subscribers d))
  ∧ (∀ f', (Ledger.remove_user f' user_id d1).1 = d1).
Proof.
  intros ->%remove_user_returns.
  assert (Hflag : Ledger.get_subscribed user_id
            (Ledger.delete_payments user_id (Ledger.delete_users user_id d)) = false).
  { by rewrite get_subscribed_delete, decide_True. }
  split; [done|]. split; [|split; [|split]].
  - unfold Ledger.get_last_payment; simpl. by rewrite lookup_delete_eq.
  - rewrite elem_of_get_subscribers, Hflag. done.
  - intros v Hne.
    assert (Hv : Ledger.get_subscribed v
              (Ledger.delete_payments user_id (Ledger.delete_users user_id d))
            = Ledger.get_subscribed v d).
    { by rewrite get_subscribed_delete, decide_False. }
    split; [done|]. split.
    + unfold Ledger.get_last_payment; simpl. by rewrite lookup_delete_ne.
    + by rewrite !elem_of_get_subscribers, Hv.
  - intros f'.
    destruct (remove_user_cases f' user_id
                (Ledger.delete_payments user_id (Ledger.delete_users user_id d)))
      as [-> | ->]; [|done].
    simpl. apply delete_gone; simpl; apply lookup_delete_eq.
Qed.

(** Subscriber 1 of the sample is removed: subscriber 2 stays in the
    snapshot with its reference. *)
Lemma remove_user_forgets_witness :
  let d1 := (Ledger.remove_user Ledger.no_faults 1 Sample.audience).1 in
  Ledger.get_subscribed 1 d1 = false
  ∧ (1%Z ∉ Ledger.get_subscribers d1)
  ∧ Ledger.get_last_payment 2 d1 = Some "tx-2".
Proof.
  intros d1.
  destruct (remove_user_forgets Ledger.no_faults 1 Sample.audience d1)
    as (Hflag & _ & Hout & Hothers & _); [reflexivity|].
  split; [exact Hflag|]. split; [exact Hout|].
  destruct (Hothers 2%Z) as (_ & Href & _); [lia|].
  rewrite Href. vm_compute. reflexivity.
Defined.

(** ** The buttons *)

Section ButtonProperties.
Import Ledger Bot.
Implicit Types (d : db) (e : env) (user_id u v : Z).

Lemma after_cb_toggle_sub e user_id d :
  after (cb_toggle_sub e user_id d) =
    set_subscribed (now_utc e 1) user_id (negb (get_subscribed user_id d))
      (upsert_user (now_utc e 0) user_id d).
Proof. unfold cb_toggle_sub. simpl. by rewrite get_subscribed_upsert_user. Qed.

Lemma truthy_true o : Py.truthy o = true → ∃ pid, o = Some pid ∧ pid ≠ "".
Proof.
  destruct o as [pid|]; simpl; [|done].
  destruct (String.eqb_spec pid ""); [done|]. by exists pid.
Qed.

(** A stored, non-empty reference leads [cb_check] to the look-up. *)
Lemma cb_check_found e user_id d pid :
  get_last_payment user_id d = Some pid →
  pid ≠ "" →
  cb_check e user_id d =
    let d1 := upsert_user (now_utc e 0) user_id d in
    match YooKassa.yk_get_payment (yk_get e) pid with
    | Py.Raise exn => Ran d1 [GetPayment pid] (GatewayError exn)
    | Py.Return payment =>
        let status := default "unknown" (YooKassa.status payment) in
        if String.eqb status "succeeded" then Ran d1 [GetPayment pid] Confirmed
        else if String.eqb status "pending" || String.eqb status "waiting_for_capture"
        then Ran d1 [GetPayment pid] InProgress
        else Ran d1 [GetPayment pid] (Failed status)
    end.
Proof.
  intros Hstored Hpid. unfold cb_check.
  by rewrite get_last_payment_upsert_user, Hstored, truthy_Some.
Qed.

Lemma cb_access_raise e user_id d pid exn :
  get_last_payment user_id d = Some pid →
  pid ≠ "" →
  YooKassa.yk_get_payment (yk_get e) pid = Py.Raise exn →
  cb_access e user_id d =
    Ran (upsert_user (now_utc e 0) user_id d) [GetPayment pid] (GatewayError exn).
Proof.
  intros Hstored Hpid Hget. unfold cb_access.
  rewrite get_last_payment_upsert_user, Hstored, truthy_Some by done.
  simpl. by rewrite Hget.
Qed.

Lemma cb_access_no_reference e user_id d :
  Py.truthy (get_last_payment user_id d) = false →
  cb_access e user_id d = Ran (upsert_user (now_utc e 0) user_id d) [] NoPendingPayment.
Proof.
  intros Hfalsy. unfold cb_access. by rewrite get_last_payment_upsert_user, Hfalsy.
Qed.

(** With the payment at hand, the invite link is asked for exactly when
    the status is "succeeded" and the owner test passes. *)
Lemma cb_access_invites e user_id d pid payment :
  get_last_payment user_id d = Some pid →
  pid ≠ "" →
  YooKassa.yk_get_payment (yk_get e) pid = Py.Return payment →
  CreateInviteLink ∈ calls (cb_access e user_id d) ↔
    YooKassa.status payment = Some "succeeded"
    ∧ (owner payment = "" ∨ owner payment = Py.str user_id).
Proof.
  intros Hstored Hpid Hget.
  rewrite (cb_access_found e user_id d pid payment) by done. simpl.
  destruct (String.eqb_spec (owner payment) "") as [Hempty | Hfilled];
    destruct (String.eqb_spec (owner payment) (Py.str user_id)) as [Hown | Hother];
    simpl; try case_bool_decide; simpl;
    rewrite ?elem_of_cons, ?list_elem_of_singleton, ?elem_of_nil;
    intuition congruence.
Qed.

Lemma cb_access_granted e user_id d link :
  answer (cb_access e user_id d) = Granted link →
  CreateInviteLink ∈ calls (cb_access e user_id d)
  ∧ create_chat_invite_link e = Py.Return link.
Proof.
  unfold cb_access, issue_invite_link. repeat case_match; simpl; try done.
  intros [= ->]. split; [|done].
  apply elem_of_cons. right. by apply list_elem_of_singleton.
Qed.

End ButtonProperties.

(** X5.  The subscription button flips the flag of the user who pressed
    it, also for a user the bot sees for the first time, and answers with
    the new flag; nobody else's flag and no payment reference changes;
    a second press brings the flag back. *)
Theorem cb_toggle_sub_flips (e e' : env) (user_id : Z) (d : Ledger.db) :
  let r := Bot.cb_toggle_sub e user_id d in
  Ledger.get_subscribed user_id (after r) = negb (Ledger.get_subscribed user_id d)
  ∧ answer r = Bot.Toggled (negb (Ledger.get_subscribed user_id d))
  ∧ (∀ v, v ≠ user_id →
       Ledger.get_subscribed v (after r) = Ledger.get_subscribed v d)
  ∧ Ledger.payments (after r) = Ledger.payments d
  ∧ Ledger.get_subscribed user_id (after (Bot.cb_toggle_sub e' user_id (after r)))
    = Ledger.get_subscribed user_id d.
Proof.
  cbv zeta.
  assert (Hflip : ∀ e0 d0, Ledger.get_subscribed user_id
            (after (Bot.cb_toggle_sub e0 user_id d0))
          = negb (Ledger.get_subscribed user_id d0)).
  { intros e0 d0. by rewrite after_cb_toggle_sub, get_subscribed_set_subscribed_eq. }
  split; [apply Hflip|]. split; [|split; [|split]].
  - unfold Bot.cb_toggle_sub. simpl. by rewrite get_subscribed_upsert_user.
  - intros v Hne.
    by rewrite after_cb_toggle_sub, get_subscribed_set_subscribed_ne,
       get_subscribed_upsert_user.
  - by rewrite after_cb_toggle_sub.
  - by rewrite !Hflip, negb_involutive.
Qed.

(** User 42 of the sample subscribes; subscriber 1 stays subscribed. *)
Lemma cb_toggle_sub_flips_witness :
  Ledger.get_subscribed 1
    (after (Bot.cb_toggle_sub (Sample.answers "pending") 42 Sample.audience))
  = Ledger.get_subscribed 1 Sample.audience.
Proof.
  destruct (cb_toggle_sub_flips (Sample.answers "pending") (Sample.answers "pending")
              42 Sample.audience) as (_ & _ & Hothers & _).
  apply Hothers. lia.
Defined.

(** X6.  [cmd_stats] answers nobody but the admin, to whom it gives the
    number of rows of [users] and the number of subscribers, the second
    never above the first; it changes no table and calls nobody. *)
Theorem cmd_stats_admin_only (cfg : config) (user_id : Z) (d : Ledger.db) :
  let r := Service.cmd_stats cfg user_id d in
  after r = d
  ∧ calls r = []
  ∧ (user_id ≠ ADMIN_ID cfg → answer r = Service.Silent)
  ∧ (user_id = ADMIN_ID cfg →
     answer r = Service.Stats (size (Ledger.users d)) (length (Ledger.get_subscribers d))
     ∧ length (Ledger.get_subscribers d) ≤ size (Ledger.users d)).
Proof.
  simpl. unfold Service.cmd_stats, Bot.is_admin, Ledger.count_users.
  destruct (Z.eqb_spec user_id (ADMIN_ID cfg)) as [Heq | Hne]; simpl.
  - repeat split; try done. apply length_get_subscribers_le.
  - repeat split; done.
Qed.

(** The admin of the sample reads 5 users, 4 of them subscribers; user 42
    gets no answer. *)
Lemma cmd_stats_admin_only_witness :
  answer (Service.cmd_stats Sample.cfg 1 Sample.audience) = Service.Stats 5 4
  ∧ answer (Service.cmd_stats Sample.cfg 42 Sample.audience) = Service.Silent.
Proof.
  split.
  - destruct (cmd_stats_admin_only Sample.cfg 1 Sample.audience) as (_ & _ & _ & Hadmin).
    destruct Hadmin as [Hanswer _]; [reflexivity|]. exact Hanswer.
  - destruct (cmd_stats_admin_only Sample.cfg 42 Sample.audience) as (_ & _ & Hother & _).
    apply Hother. discriminate.
Defined.

(** X7.  A payment whose owner metadata is the [tg_user_id] that
    [yk_create_payment] sends for the payer is accepted when the payer
    presses the access button (the answer then depends on the status
    alone) and refused, without a request for an invite link, when any
    other user presses it. *)
Theorem payment_is_bound_to_payer
    (cfg : config) (e : env) (key : string) (payer visitor : Z)
    (d : Ledger.db) (pid : string) (payment : YooKassa.payment) :
  Ledger.get_last_payment visitor d = Some pid →
  pid ≠ "" →
  YooKassa.yk_get_payment (yk_get e) pid = Py.Return payment →
  Bot.owner payment = YooKassa.tg_user_id (YooKassa.payload cfg key payer) →
  (visitor = payer →
   (YooKassa.status payment = Some "succeeded" →
    answer (Bot.cb_access e visitor d) = invite_answer e)
   ∧ (YooKassa.status payment ≠ Some "succeeded" →
      answer (Bot.cb_access e visitor d) = Bot.NotConfirmed (YooKassa.status payment)))
  ∧ (visitor ≠ payer →
     Bot.cb_access e visitor d =
       Ran (Ledger.upsert_user (now_utc e 0) visitor d) [GetPayment pid]
           Bot.OwnershipMismatch).
Proof.
  intros Hstored Hpid Hget Howner. simpl in Howner. split.
  - intros ->. rewrite (cb_access_found e payer d pid payment) by done. simpl.
    rewrite Howner, String.eqb_refl, orb_true_r. simpl.
    case_bool_decide; simpl; split; done.
  - intros Hne. by apply (cb_access_other_user e visitor payer d pid payment).
Qed.

(** The payment of user 42 of the sample opens the channel to user 42 and
    not to user 43. *)
Lemma payment_is_bound_to_payer_witness :
  answer (Bot.cb_access (Sample.answers "succeeded") 42 Sample.borrowed)
    = Bot.Granted "https://t.me/+invite"
  ∧ answer (Bot.cb_access (Sample.answers "succeeded") 43 Sample.borrowed)
    = Bot.OwnershipMismatch.
Proof.
  split.
  - destruct (payment_is_bound_to_payer Sample.cfg (Sample.answers "succeeded") "k"
                42 42 Sample.borrowed "tx-1" (Sample.tx "succeeded")) as [Hpayer _];
      [vm_compute; reflexivity | discriminate | vm_compute; reflexivity
      | vm_compute; reflexivity |].
    destruct Hpayer as [Hgranted _]; [reflexivity|]. apply Hgranted. reflexivity.
  - destruct (payment_is_bound_to_payer Sample.cfg (Sample.answers "succeeded") "k"
                42 43 Sample.borrowed "tx-1" (Sample.tx "succeeded")) as [_ Hother];
      [vm_compute; reflexivity | discriminate | vm_compute; reflexivity
      | vm_compute; reflexivity |].
    rewrite Hother by lia. reflexivity.
Defined.

(** X8.  [cb_access] asks Telegram for an invite link exactly when the
    caller has a stored, non-empty reference, the gateway returns the
    payment, its status is "succeeded" and its owner metadata is empty or
    the caller's id.  In particular a link is only ever handed out after
    such a payment, and it is the link Telegram issued. *)
Theorem invite_only_when_paid (e : env) (user_id : Z) (d : Ledger.db) :
  let r := Bot.cb_access e user_id d in
  (CreateInviteLink ∈ calls r ↔
     ∃ pid payment,
       Ledger.get_last_payment user_id d = Some pid
       ∧ pid ≠ ""
       ∧ YooKassa.yk_get_payment (yk_get e) pid = Py.Return payment
       ∧ YooKassa.status payment = Some "succeeded"
       ∧ (Bot.owner payment = "" ∨ Bot.owner payment = Py.str user_id))
  ∧ (∀ link, answer r = Bot.Granted link →
       CreateInviteLink ∈ calls r ∧ create_chat_invite_link e = Py.Return link).
Proof.
  cbv zeta. split; [|apply cb_access_granted].
  destruct (Py.truthy (Ledger.get_last_payment user_id d)) eqn:Htruthy.
  2:{ rewrite cb_access_no_reference by done. simpl. split.
      - by intros ?%elem_of_nil.
      - intros (pid & payment & Hstored & Hpid & _).
        by rewrite Hstored, truthy_Some in Htruthy. }
  destruct (truthy_true _ Htruthy) as (pid & Hstored & Hpid).
  destruct (YooKassa.yk_get_payment (yk_get e) pid) as [exn | payment] eqn:Hget.
  { rewrite (cb_access_raise e user_id d pid exn) by done. simpl. split.
    - by intros ?%list_elem_of_singleton.
    - intros (pid' & payment & Hstored' & _ & Hget' & _). congruence. }
  rewrite (cb_access_invites e user_id d pid payment) by done. split.
  - intros [Hstatus Howner]. by exists pid, payment.
  - intros (pid' & payment' & Hstored' & _ & Hget' & Hstatus & Howner).
    assert (pid' = pid) as -> by congruence.
    assert (payment' = payment) as -> by congruence. done.
Qed.

(** User 42 of the sample gets the link that Telegram issued. *)
Lemma invite_only_when_paid_witness :
  CreateInviteLink ∈ calls (Bot.cb_access (Sample.answers "succeeded") 42 Sample.paid)
  ∧ create_chat_invite_link (Sample.answers "succeeded")
    = Py.Return "https://t.me/+invite".
Proof.
  destruct (invite_only_when_paid (Sample.answers "succeeded") 42 Sample.paid)
    as [_ Hgranted].
  apply (Hgranted "https://t.me/+invite"). vm_compute. reflexivity.
Defined.

(** X9.  A look-up that fails is reported by both buttons with the text
    of the failure and nothing else happens: a response with status 400
    or more gives "YooKassa error", the status and the body; below 400
    the status is no error, and a body that is not JSON gives the text of
    the decoder; a failure of the HTTP client gives its text.  No invite
    link is asked for. *)
Theorem lookup_failure_is_reported
    (e : env) (user_id : Z) (d : Ledger.db) (pid : string) :
  Ledger.get_last_payment user_id d = Some pid →
  pid ≠ "" →
  let failed exn :=
    Bot.cb_check e user_id d =
      Ran (Ledger.upsert_user (now_utc e 0) user_id d) [GetPayment pid]
          (Bot.GatewayError exn)
    ∧ Bot.cb_access e user_id d =
      Ran (Ledger.upsert_user (now_utc e 0) user_id d) [GetPayment pid]
          (Bot.GatewayError exn) in
  (∀ code text json,
      yk_get e pid = YooKassa.Response code text json → (400 ≤ code)%Z →
      failed ("YooKassa error " +:+ Py.str code +:+ ": " +:+ text))
  ∧ (∀ code text exn,
      yk_get e pid = YooKassa.Response code text (Py.Raise exn) → (code < 400)%Z →
      failed exn)
  ∧ (∀ exn, yk_get e pid = YooKassa.ClientError exn → failed exn).
Proof.
  intros Hstored Hpid failed.
  assert (Hfailed : ∀ exn,
            YooKassa.yk_get_payment (yk_get e) pid = Py.Raise exn → failed exn).
  { intros exn Hget. split.
    - rewrite (cb_check_found e user_id d pid) by done. simpl. by rewrite Hget.
    - by apply cb_access_raise. }
  split; [|split].
  - intros code text json Hreply Hcode. apply Hfailed.
    unfold YooKassa.yk_get_payment, YooKassa.read_reply. rewrite Hreply.
    by rewrite (proj2 (Z.leb_le 400 code) Hcode).
  - intros code text exn Hreply Hcode. apply Hfailed.
    unfold YooKassa.yk_get_payment, YooKassa.read_reply. rewrite Hreply.
    by rewrite (proj2 (Z.leb_gt 400 code) Hcode).
  - intros exn Hreply. apply Hfailed.
    unfold YooKassa.yk_get_payment, YooKassa.read_reply. by rewrite Hreply.
Qed.

(** The gateway of the sample is down: user 42 reads the status 503 and
    the body. *)
Lemma lookup_failure_is_reported_witness :
  answer (Bot.cb_check Sample.unavailable 42 Sample.paid)
    = Bot.GatewayError "YooKassa error 503: busy"
  ∧ answer (Bot.cb_access Sample.unavailable 42 Sample.paid)
    = Bot.GatewayError "YooKassa error 503: busy".
Proof.
  destruct (lookup_failure_is_reported Sample.unavailable 42 Sample.paid "tx-1")
    as (Hstatus & _ & _); [vm_compute; reflexivity | discriminate |].
  destruct (Hstatus 503%Z "busy" (Py.Raise "Expecting value")) as [Hcheck Haccess];
    [reflexivity | lia |].
  rewrite Hcheck, Haccess. split; reflexivity.
Defined.

(** X10.  After [cb_pay] has answered with a created payment whose id is
    not empty, that id is the stored reference of the caller, whatever
    was stored before; the next [cb_check] and the next [cb_access] of
    the caller look this id up at the gateway and do not answer that
    there is no pending payment. *)
Theorem check_follows_pay
    (cfg : config) (e e' : env) (user_id : Z) (d : Ledger.db) (url pid : string) :
  answer (Bot.cb_pay cfg e user_id d) = Bot.PayCreated url pid →
  pid ≠ "" →
  let d1 := after (Bot.cb_pay cfg e user_id d) in
  Ledger.get_last_payment user_id d1 = Some pid
  ∧ calls (Bot.cb_check e' user_id d1) = [GetPayment pid]
  ∧ answer (Bot.cb_check e' user_id d1) ≠ Bot.NoPendingPayment
  ∧ GetPayment pid ∈ calls (Bot.cb_access e' user_id d1)
  ∧ answer (Bot.cb_access e' user_id d1) ≠ Bot.NoPendingPayment.
Proof.
  intros Hcreated Hpid d1.
  assert (Hstored : Ledger.get_last_payment user_id d1 = Some pid).
  { subst d1. unfold Bot.cb_pay in *.
    destruct (YooKassa.yk_create_payment _ _ _ _) as [exn | payment]; [done|].
    destruct (YooKassa.id payment) as [pid'|]; [|done].
    destruct (YooKassa.confirmation_url payment); [|done].
    simpl in *. injection Hcreated as _ ->. apply get_last_payment_save_eq. }
  split; [done|].
  rewrite (cb_check_found e' user_id d1 pid) by done.
  destruct (YooKassa.yk_get_payment (yk_get e') pid) as [exn | payment] eqn:Hget.
  - rewrite (cb_access_raise e' user_id d1 pid exn) by done. simpl.
    repeat split; try done. by apply list_elem_of_singleton.
  - rewrite (cb_access_found e' user_id d1 pid payment) by done. simpl.
    repeat split.
    + by repeat case_match.
    + by repeat case_match.
    + repeat case_match; simpl; apply elem_of_cons; by left.
    + unfold invite_answer. by repeat case_match.
Qed.

(** User 7 pays in the sample and checks at once. *)
Lemma check_follows_pay_witness :
  let d1 := after (Bot.cb_pay Sample.cfg (Sample.answers "pending") 7 Sample.paid) in
  calls (Bot.cb_check (Sample.answers "pending") 7 d1) = [GetPayment "tx-1"]
  ∧ answer (Bot.cb_check (Sample.answers "pending") 7 d1) ≠ Bot.NoPendingPayment.
Proof.
  destruct (check_follows_pay Sample.cfg (Sample.answers "pending")
              (Sample.answers "pending") 7 Sample.paid "https://pay/tx-1" "tx-1")
    as (_ & Hcalls & Hanswer & _); [vm_compute; reflexivity | discriminate |].
  exact (conj Hcalls Hanswer).
Defined.



(** ** Who a broadcast contacts and what it leaves *)

Section BroadcastProperties.
Import Ledger Broadcast.
Implicit Types (d : db) (e : env) (uid u v : Z) (r : run).

(** One recipient adds calls to the end of the trace; the sends among
    them go to this recipient, and there is at least one. *)
Lemma body_sent e uid r r1 exn :
  body e uid r = (r1, exn) →
  ∃ extra, sent r1 = sent r ++ extra
    ∧ Send uid ∈ extra
    ∧ ∀ v, Send v ∈ extra → v = uid.
Proof.
  unfold body.
  destruct (deliver e uid FirstTry); [| |destruct (deliver e uid SecondTry)|];
    try destruct (remove_user _ _ _); intros [= <- _]; simpl;
    eexists; (split; [done|]);
    (split; [apply elem_of_cons; by left|]);
    intros v; rewrite ?elem_of_cons, ?elem_of_nil; intuition congruence.
Qed.

Lemma for_uid_in_sent e subscribers r0 r exn v :
  for_uid_in e subscribers r0 = (r, exn) →
  Send v ∈ sent r → Send v ∈ sent r0 ∨ v ∈ subscribers.
Proof.
  revert r0. induction subscribers as [|uid rest IH]; intros r0; simpl.
  - intros [= <- _]. by left.
  - destruct (body e uid r0) as [r1 x] eqn:Hbody.
    destruct (body_sent _ _ _ _ _ Hbody) as (extra & Hsent & _ & Honly).
    assert (Hstep : Send v ∈ sent r1 → Send v ∈ sent r0 ∨ v ∈ uid :: rest).
    { rewrite Hsent, elem_of_app. intros [Hold | ->%Honly]; [by left|].
      right. apply elem_of_cons. by left. }
    destruct x as [x|].
    + intros [= <- _]. done.
    + intros Hrest Hin. destruct (IH _ Hrest Hin) as [Hin1 | Hin1]; [by apply Hstep|].
      right. apply elem_of_cons. by right.
Qed.

Lemma for_uid_in_sent_all e subscribers r0 r :
  for_uid_in e subscribers r0 = (r, None) →
  (∀ c, c ∈ sent r0 → c ∈ sent r)
  ∧ ∀ v, v ∈ subscribers → Send v ∈ sent r.
Proof.
  revert r0. induction subscribers as [|uid rest IH]; intros r0; simpl.
  - intros [= <-]. split; [done|]. by intros v ?%elem_of_nil.
  - destruct (body e uid r0) as [r1 [x|]] eqn:Hbody; [done|].
    destruct (body_sent _ _ _ _ _ Hbody) as (extra & Hsent & Hone & _).
    intros [Hmono Hall]%IH. split.
    + intros c Hc. apply Hmono. rewrite Hsent, elem_of_app. by left.
    + intros v [-> | Hin]%elem_of_cons; [|by apply Hall].
      apply Hmono. rewrite Hsent, elem_of_app. by right.
Qed.

(** The rows of a user after the loop are the rows before it, or they are
    gone and the user is a recipient of the run whose first try was
    forbidden. *)
Lemma for_uid_in_rows e subscribers r0 r exn v :
  for_uid_in e subscribers r0 = (r, exn) →
  (users (tables r) !! v = users (tables r0) !! v
   ∧ payments (tables r) !! v = payments (tables r0) !! v)
  ∨ (users (tables r) !! v = None
     ∧ payments (tables r) !! v = None
     ∧ v ∈ subscribers
     ∧ deliver e v FirstTry = Forbidden).
Proof.
  revert r0. induction subscribers as [|uid rest IH]; intros r0; simpl.
  - intros [= <- _]. by left.
  - destruct (body e uid r0) as [r1 x] eqn:Hbody.
    assert (Hstep :
      (users (tables r1) !! v = users (tables r0) !! v
       ∧ payments (tables r1) !! v = payments (tables r0) !! v)
      ∨ (users (tables r1) !! v = None ∧ payments (tables r1) !! v = None
         ∧ v = uid ∧ deliver e v FirstTry = Forbidden)).
    { destruct (body_tables _ _ _ _ _ Hbody) as [-> | [Hforbidden ->]]; [by left|].
      simpl. destruct (decide (v = uid)) as [-> | Hne].
      - right. by rewrite !lookup_delete_eq.
      - left. by rewrite !lookup_delete_ne. }
    assert (Hhead : uid ∈ uid :: rest) by (apply elem_of_cons; by left).
    destruct x as [x|].
    + intros [= <- _]. destruct Hstep as [? | (? & ? & -> & ?)]; [by left | by right].
    + intros Hrest. destruct (IH _ Hrest) as [[Hu Hp] | (Hu & Hp & Hin & Hforbidden)].
      * rewrite Hu, Hp. destruct Hstep as [? | (? & ? & -> & ?)]; [by left | by right].
      * right. repeat split; try done. apply elem_of_cons. by right.
Qed.

(** The counters of one recipient by what became of the delivery. *)
Lemma body_counts e uid r r1 :
  body e uid r = (r1, None) →
  ok (count r1) = ok (count r) + (if reached e uid then 1 else 0)
  ∧ blocked (count r1) =
      blocked (count r) + (if decide (deliver e uid FirstTry = Forbidden) then 1 else 0)
  ∧ failed (count r1) =
      failed (count r)
      + (if decide (reached e uid = false ∧ deliver e uid FirstTry ≠ Forbidden)
         then 1 else 0).
Proof.
  unfold body, reached.
  destruct (deliver e uid FirstTry); [| |destruct (deliver e uid SecondTry)|];
    try destruct (remove_user _ _ _); intros [= <-]; simpl;
    try rewrite decide_True by done;
    try rewrite decide_False by (intros [? ?]; done); lia.
Qed.

Lemma for_uid_in_counts e subscribers r0 r :
  for_uid_in e subscribers r0 = (r, None) →
  ok (count r) =
    ok (count r0) + length (filter (λ uid, reached e uid = true) subscribers)
  ∧ blocked (count r) =
      blocked (count r0)
      + length (filter (λ uid, deliver e uid FirstTry = Forbidden) subscribers)
  ∧ failed (count r) =
      failed (count r0)
      + length (filter (λ uid, reached e uid = false
                               ∧ deliver e uid FirstTry ≠ Forbidden) subscribers).
Proof.
  revert r0. induction subscribers as [|uid rest IH]; intros r0; simpl.
  - intros [= <-]. simpl. lia.
  - destruct (body e uid r0) as [r1 [x|]] eqn:Hbody; [done|].
    intros (Hok & Hblocked & Hfailed)%IH.
    destruct (body_counts _ _ _ _ Hbody) as (Hok1 & Hblocked1 & Hfailed1).
    rewrite !filter_cons. rewrite Hok, Hblocked, Hfailed, Hok1, Hblocked1, Hfailed1.
    destruct (reached e uid) eqn:Hreached; repeat case_decide; simpl;
      try lia; exfalso; intuition congruence.
Qed.



(** The commands behind their guards. *)
Lemma cmd_broadcast_cases cfg e user_id parts d :
  (cmd_broadcast cfg e user_id parts d = fan_out e d ∧ user_id = ADMIN_ID cfg)
  ∨ (calls (cmd_broadcast cfg e user_id parts d) = []
     ∧ after (cmd_broadcast cfg e user_id parts d) = d
     ∧ ∀ n_ok n_blocked n_failed,
         answer (cmd_broadcast cfg e user_id parts d) ≠ Finished n_ok n_blocked n_failed).
Proof.
  unfold cmd_broadcast, Bot.is_admin.
  destruct (Z.eqb_spec user_id (ADMIN_ID cfg)); simpl; [|by right].
  destruct (length parts <? 2); [by right | by left].
Qed.

Lemma cmd_broadcast_here_cases cfg e user_id replied d :
  (cmd_broadcast_here cfg e user_id replied d = fan_out e d ∧ user_id = ADMIN_ID cfg)
  ∨ (calls (cmd_broadcast_here cfg e user_id replied d) = []
     ∧ after (cmd_broadcast_here cfg e user_id replied d) = d
     ∧ ∀ n_ok n_blocked n_failed,
         answer (cmd_broadcast_here cfg e user_id replied d)
         ≠ Finished n_ok n_blocked n_failed).
Proof.
  unfold cmd_broadcast_here, Bot.is_admin.
  destruct (Z.eqb_spec user_id (ADMIN_ID cfg)); simpl; [|by right].
  destruct replied; [by left | by right].
Qed.

(** [fan_out] is the loop over the snapshot, also when the snapshot is
    empty. *)
Lemma fan_out_loop e d :
  ∃ r exn, for_uid_in e (get_subscribers d) (start d) = (r, exn)
    ∧ after (fan_out e d) = tables r
    ∧ calls (fan_out e d) = sent r
    ∧ (∀ n_ok n_blocked n_failed,
         answer (fan_out e d) = Finished n_ok n_blocked n_failed →
         exn = None ∧ n_ok = ok (count r) ∧ n_blocked = blocked (count r)
         ∧ n_failed = failed (count r)).
Proof.
  unfold fan_out. destruct (get_subscribers d) as [|uid rest].
  - exists (start d), None. simpl. repeat split; done.
  - destruct (for_uid_in e (uid :: rest) (start d)) as [r [x|]].
    + exists r, (Some x). repeat split; done.
    + exists r, None. do 3 (split; [done|]). by intros ??? [= <- <- <-].
Qed.

End BroadcastProperties.

Section BroadcastCommands.
Import Ledger Broadcast.
Implicit Types (d : db) (e : env) (r : ran report).

(** Either command is [fan_out] run for the admin, or a refusal that
    calls nobody and leaves the tables alone. *)
Lemma command_cases cfg e user_id parts replied d r :
  r = cmd_broadcast cfg e user_id parts d
  ∨ r = cmd_broadcast_here cfg e user_id replied d →
  (r = fan_out e d ∧ user_id = ADMIN_ID cfg)
  ∨ (calls r = [] ∧ after r = d
     ∧ ∀ n_ok n_blocked n_failed, answer r ≠ Finished n_ok n_blocked n_failed).
Proof.
  intros [-> | ->]; [apply cmd_broadcast_cases | apply cmd_broadcast_here_cases].
Qed.

End BroadcastCommands.

(** X12.  Whatever Telegram and the database do, [/broadcast] and
    [/broadcast_here] send only when the sender of the command is the
    admin, and only to users who were subscribed when the command came
    in; when the command ends with its report, every such user has been
    sent to.  Anybody else is told that there is no access, and nothing
    is sent or changed. *)
Theorem broadcast_contacts_subscribers
    (cfg : config) (e : env) (user_id : Z) (parts : list string) (replied : bool)
    (d : Ledger.db) (r : ran Broadcast.report) :
  r = Broadcast.cmd_broadcast cfg e user_id parts d
  ∨ r = Broadcast.cmd_broadcast_here cfg e user_id replied d →
  (∀ uid, Send uid ∈ calls r →
     user_id = ADMIN_ID cfg ∧ Ledger.get_subscribed uid d = true)
  ∧ (∀ n_ok n_blocked n_failed,
       answer r = Broadcast.Finished n_ok n_blocked n_failed →
       ∀ uid, Ledger.get_subscribed uid d = true → Send uid ∈ calls r)
  ∧ (user_id ≠ ADMIN_ID cfg → r = Ran d [] Broadcast.NoAccess).
Proof.
  intros Hr. split; [|split].
  - intros uid Hsend.
    destruct (command_cases _ _ _ _ _ _ _ Hr) as [[-> Hadmin] | (Hcalls & _)].
    2:{ rewrite Hcalls in Hsend. by apply elem_of_nil in Hsend. }
    split; [done|].
    destruct (fan_out_loop e d) as (run & exn & Hrun & _ & Hcalls & _).
    rewrite Hcalls in Hsend.
    destruct (for_uid_in_sent _ _ _ _ _ _ Hrun Hsend) as [Hin | Hin].
    + by apply elem_of_nil in Hin.
    + by apply elem_of_get_subscribers.
  - intros n_ok n_blocked n_failed Hanswer uid Hsub.
    destruct (command_cases _ _ _ _ _ _ _ Hr) as [[-> Hadmin] | (_ & _ & Hnot)].
    2:{ by destruct (Hnot n_ok n_blocked n_failed). }
    destruct (fan_out_loop e d) as (run & exn & Hrun & _ & Hcalls & Hfinished).
    destruct (Hfinished _ _ _ Hanswer) as (-> & _).
    rewrite Hcalls. apply (for_uid_in_sent_all _ _ _ _ Hrun).
    by apply elem_of_get_subscribers.
  - intros Hne. destruct Hr as [-> | ->];
      unfold Broadcast.cmd_broadcast, Broadcast.cmd_broadcast_here, Bot.is_admin;
      by rewrite (proj2 (Z.eqb_neq _ _) Hne).
Qed.

(** The broadcast of the sample goes to subscriber 3; user 42, who sends
    the command without being the admin, is refused. *)
Lemma broadcast_contacts_subscribers_witness :
  Send 3 ∈ calls (Broadcast.cmd_broadcast Sample.cfg (Sample.answers "pending") 1
                    ["/broadcast"; "start"] Sample.audience)
  ∧ Broadcast.cmd_broadcast Sample.cfg (Sample.answers "pending") 42
      ["/broadcast"; "start"] Sample.audience
    = Ran Sample.audience [] Broadcast.NoAccess.
Proof.
  split.
  - destruct (broadcast_contacts_subscribers Sample.cfg (Sample.answers "pending") 1
                ["/broadcast"; "start"] true Sample.audience
                (Broadcast.cmd_broadcast Sample.cfg (Sample.answers "pending") 1
                   ["/broadcast"; "start"] Sample.audience))
      as (_ & Hall & _); [by left|].
    apply (Hall 2 1 1); vm_compute; reflexivity.
  - destruct (broadcast_contacts_subscribers Sample.cfg (Sample.answers "pending") 42
                ["/broadcast"; "start"] true Sample.audience
                (Broadcast.cmd_broadcast Sample.cfg (Sample.answers "pending") 42
                   ["/broadcast"; "start"] Sample.audience))
      as (_ & _ & Hrefused); [by left|].
    apply Hrefused. discriminate.
Defined.

(** X13.  A broadcast command never inserts or changes a row: after it,
    however it ends, the rows of a user in [users] and [payments] are the
    rows from before, or both are gone, and then the command came from
    the admin, the user was subscribed and the first try to reach the
    user was forbidden. *)
Theorem broadcast_only_deletes_blocked
    (cfg : config) (e : env) (user_id : Z) (parts : list string) (replied : bool)
    (d : Ledger.db) (r : ran Broadcast.report) (v : Z) :
  r = Broadcast.cmd_broadcast cfg e user_id parts d
  ∨ r = Broadcast.cmd_broadcast_here cfg e user_id replied d →
  (Ledger.users (after r) !! v = Ledger.users d !! v
   ∧ Ledger.payments (after r) !! v = Ledger.payments d !! v)
  ∨ (Ledger.users (after r) !! v = None
     ∧ Ledger.payments (after r) !! v = None
     ∧ user_id = ADMIN_ID cfg
     ∧ Ledger.get_subscribed v d = true
     ∧ deliver e v FirstTry = Forbidden).
Proof.
  intros Hr.
  destruct (command_cases _ _ _ _ _ _ _ Hr) as [[-> Hadmin] | (_ & -> & _)]; [|by left].
  destruct (fan_out_loop e d) as (run & exn & Hrun & -> & _).
  destruct (for_uid_in_rows _ _ _ _ _ v Hrun) as [? | (Hu & Hp & Hin & Hforbidden)];
    [by left|].
  right. repeat split; try done. by apply elem_of_get_subscribers.
Qed.

(** User 42 of the sample, who is no subscriber, keeps the reference
    through the broadcast. *)
Lemma broadcast_only_deletes_blocked_witness :
  Ledger.get_last_payment 42
    (after (Broadcast.cmd_broadcast_here Sample.cfg (Sample.answers "pending") 1 true
              Sample.audience))
  = Some "tx-1".
Proof.
  destruct (broadcast_only_deletes_blocked Sample.cfg (Sample.answers "pending") 1
              [] true Sample.audience
              (Broadcast.cmd_broadcast_here Sample.cfg (Sample.answers "pending") 1 true
                 Sample.audience) 42)
    as [[_ Hkept] | (_ & _ & _ & Hsub & _)]; [by right | |].
  - unfold Ledger.get_last_payment. rewrite Hkept. vm_compute. reflexivity.
  - vm_compute in Hsub. discriminate Hsub.
Defined.

(** X14.  The three numbers of the report count the subscribers of the
    snapshot by what became of their delivery: delivered are those who
    got the message at the first try or at the retry after a rate limit,
    blocked those whose first try was forbidden, errors all others. *)
Theorem report_counts_outcomes
    (cfg : config) (e : env) (user_id : Z) (parts : list string) (replied : bool)
    (d : Ledger.db) (r : ran Broadcast.report) (n_ok n_blocked n_failed : nat) :
  r = Broadcast.cmd_broadcast cfg e user_id parts d
  ∨ r = Broadcast.cmd_broadcast_here cfg e user_id replied d →
  answer r = Broadcast.Finished n_ok n_blocked n_failed →
  n_ok = length (filter (λ uid, reached e uid = true) (Ledger.get_subscribers d))
  ∧ n_blocked =
      length (filter (λ uid, deliver e uid FirstTry = Forbidden)
                     (Ledger.get_subscribers d))
  ∧ n_failed =
      length (filter (λ uid, reached e uid = false ∧ deliver e uid FirstTry ≠ Forbidden)
                     (Ledger.get_subscribers d)).
Proof.
  intros Hr Hanswer.
  destruct (command_cases _ _ _ _ _ _ _ Hr) as [[-> Hadmin] | (_ & _ & Hnot)].
  2:{ by destruct (Hnot n_ok n_blocked n_failed). }
  destruct (fan_out_loop e d) as (run & exn & Hrun & _ & _ & Hfinished).
  destruct (Hfinished _ _ _ Hanswer) as (-> & -> & -> & ->).
  destruct (for_uid_in_counts _ _ _ _ Hrun) as (Hok & Hblocked & Hfailed).
  simpl in *. lia.
Qed.

(** The report of the sample: 2 delivered, 1 blocked, 1 error. *)
Lemma report_counts_outcomes_witness :
  2 = length (filter (λ uid, reached (Sample.answers "pending") uid = true)
                     (Ledger.get_subscribers Sample.audience)).
Proof.
  apply (report_counts_outcomes Sample.cfg (Sample.answers "pending") 1
           ["/broadcast"; "start"] true Sample.audience
           (Broadcast.cmd_broadcast Sample.cfg (Sample.answers "pending") 1
              ["/broadcast"; "start"] Sample.audience) 2 1 1).
  - by left.
  - vm_compute. reflexivity.
Defined.



(** ** Histories of updates *)

Section DispatcherProperties.
Import Ledger Dispatcher.
Implicit Types (d : db) (e : env) (user_id v w : Z) (u : update).

Lemma after_cmd_start e user_id d :
  after (Bot.cmd_start e user_id d) = upsert_user (now_utc e 0) user_id d.
Proof. reflexivity. Qed.

Lemma after_cmd_menu e user_id d :
  after (Bot.cmd_menu e user_id d) = upsert_user (now_utc e 0) user_id d.
Proof. reflexivity. Qed.

Lemma after_cmd_stats cfg user_id d : after (Service.cmd_stats cfg user_id d) = d.
Proof. unfold Service.cmd_stats. by repeat case_match. Qed.

Lemma payments_cb_pay_ne cfg e user_id v d :
  v ≠ user_id →
  payments (after (Bot.cb_pay cfg e user_id d)) !! v = payments d !! v.
Proof.
  intros Hne. unfold Bot.cb_pay. repeat case_match; simpl; try done;
    by rewrite lookup_insert_ne.
Qed.

Lemma payments_cb_pay_kept cfg e user_id v d :
  is_Some (payments d !! v) →
  is_Some (payments (after (Bot.cb_pay cfg e user_id d)) !! v).
Proof.
  intros Hv. unfold Bot.cb_pay. repeat case_match; simpl; try done;
    apply lookup_insert_is_Some'; by right.
Qed.




Lemma users_cb_toggle_sub_kept e user_id v d :
  is_Some (users d !! v) →
  is_Some (users (after (Bot.cb_toggle_sub e user_id d)) !! v).
Proof.
  intros Hv. rewrite after_cb_toggle_sub. unfold set_subscribed; simpl.
  apply lookup_insert_is_Some'. right. by apply lookup_insert_is_Some'; right.
Qed.

(** What a broadcast command does to the rows of one user. *)
Lemma command_rows cfg e user_id parts replied d (r : ran Broadcast.report) v :
  r = Broadcast.cmd_broadcast cfg e user_id parts d
  ∨ r = Broadcast.cmd_broadcast_here cfg e user_id replied d →
  (users (after r) !! v = users d !! v ∧ payments (after r) !! v = payments d !! v)
  ∨ (users (after r) !! v = None ∧ payments (after r) !! v = None).
Proof.
  intros Hr.
  destruct (command_cases _ _ _ _ _ _ _ Hr) as [[-> _] | (_ & -> & _)]; [|by left].
  destruct (fan_out_loop e d) as (run & exn & Hrun & -> & _).
  destruct (for_uid_in_rows _ _ _ _ _ v Hrun) as [? | (? & ? & _)]; [by left | by right].
Qed.


Lemma handle_unsubscribed cfg e user_id u d v :
  get_subscribed v d = false →
  (u = ToggleSub → user_id ≠ v) →
  get_subscribed v (handle cfg e user_id u d) = false.
Proof.
  intros Hv Htoggle.
  destruct u; cbn [handle];
    rewrite ?after_cmd_stats, ?after_cmd_start, ?after_cmd_menu; try done.
  - by rewrite get_subscribed_upsert_user.
  - by rewrite get_subscribed_upsert_user.
  - rewrite after_cb_toggle_sub, get_subscribed_set_subscribed_ne,
      get_subscribed_upsert_user; [done|]. intros ->. by apply Htoggle.
  - rewrite (get_subscribed_users_eq _ _ v (users_cb_pay cfg e user_id d)).
    by rewrite get_subscribed_upsert_user.
  - by rewrite after_cb_check, get_subscribed_upsert_user.
  - by rewrite after_cb_access, get_subscribed_upsert_user.
  - unfold get_subscribed in *.
    by destruct (command_rows cfg e user_id parts true d _ v (or_introl eq_refl))
      as [[-> _] | [-> _]].
  - unfold get_subscribed in *.
    by destruct (command_rows cfg e user_id [] reply_to_message d _ v (or_intror eq_refl))
      as [[-> _] | [-> _]].
Qed.

End DispatcherProperties.



(** X17.  Subscription is opt-in: a user who is not subscribed and does
    not press the subscription button in a history of updates is not
    subscribed after it, whatever else the user or anybody else does, and
    is in no snapshot of subscribers. *)
Theorem subscription_is_opt_in
    (cfg : config) (history : list (env * Z * Dispatcher.update))
    (d : Ledger.db) (v : Z) :
  Ledger.get_subscribed v d = false →
  (∀ e user_id, (e, user_id, Dispatcher.ToggleSub) ∈ history → user_id ≠ v) →
  Ledger.get_subscribed v (Dispatcher.replay cfg history d) = false
  ∧ (v ∉ Ledger.get_subscribers (Dispatcher.replay cfg history d)).
Proof.
  intros Hv Hquiet.
  assert (Hflag : Ledger.get_subscribed v (Dispatcher.replay cfg history d) = false).
  { revert d Hv. induction history as [|[[e user_id] u] rest IH]; intros d Hv; [done|].
    simpl. apply IH.
    - intros e' user_id' Hin. apply (Hquiet e'). apply elem_of_cons. by right.
    - apply handle_unsubscribed; [done|]. intros ->. apply (Hquiet e).
      apply elem_of_cons. by left. }
  split; [done|]. by rewrite elem_of_get_subscribers, Hflag.
Qed.

(** User 7 starts, pays, checks and asks for access while user 9
    subscribes: user 7 is not subscribed. *)
Lemma subscription_is_opt_in_witness :
  let history :=
    [(Sample.answers "pending", 7%Z, Dispatcher.Start);
     (Sample.answers "pending", 7%Z, Dispatcher.Pay);
     (Sample.answers "pending", 9%Z, Dispatcher.ToggleSub);
     (Sample.answers "succeeded", 7%Z, Dispatcher.Check);
     (Sample.answers "succeeded", 7%Z, Dispatcher.Access)] in
  Ledger.get_subscribed 7 (Dispatcher.replay Sample.cfg history Ledger.fresh) = false
  ∧ (7%Z ∉ Ledger.get_subscribers (Dispatcher.replay Sample.cfg history Ledger.fresh)).
Proof.
  intros history. apply subscription_is_opt_in; [reflexivity|].
  intros e user_id Hin ->. subst history.
  rewrite !elem_of_cons, elem_of_nil in Hin.
  destruct Hin as [Heq | [Heq | [Heq | [Heq | [Heq | []]]]]]; discriminate Heq.
Defined.

Section SenderProperties.
Import Ledger Dispatcher.
Implicit Types (d : db) (e : env) (user_id v : Z) (u : update).

(** The sender's own row keeps its time of creation under [upsert_user]
    and under the subscription button. *)
Lemma created_at_upsert_user now user_id d row :
  users d !! user_id = Some row →
  ∃ row', users (upsert_user now user_id d) !! user_id = Some row'
    ∧ created_at row' = created_at row.
Proof. intros Hrow. rewrite users_upsert_user_eq, Hrow. by eexists. Qed.

Lemma created_at_cb_toggle_sub e user_id d row :
  users d !! user_id = Some row →
  ∃ row', users (after (Bot.cb_toggle_sub e user_id d)) !! user_id = Some row'
    ∧ created_at row' = created_at row.
Proof.
  intros Hrow. rewrite after_cb_toggle_sub. unfold set_subscribed; simpl.
  rewrite lookup_insert_eq, lookup_insert_eq, Hrow. by eexists.
Qed.

Lemma rows_cb_toggle_sub_ne e user_id v d :
  v ≠ user_id →
  users (after (Bot.cb_toggle_sub e user_id d)) !! v = users d !! v
  ∧ payments (after (Bot.cb_toggle_sub e user_id d)) !! v = payments d !! v.
Proof.
  intros Hne. rewrite after_cb_toggle_sub.
  by rewrite users_set_subscribed_ne, users_upsert_user_ne.
Qed.

End SenderProperties.

(** X18.  Except for the two broadcast commands, the handler of an update
    touches no row but the sender's: the rows of every other user in
    [users] and [payments] are the same after it.  The sender's row in
    [users], if there was one, is still there with its time of creation,
    and a stored reference of the sender is still stored (possibly
    replaced).  The handlers of /whoami, /stats and the support button
    touch no row at all, not even the sender's. *)
Theorem handlers_touch_only_the_sender
    (cfg : config) (e : env) (user_id : Z) (u : Dispatcher.update) (d : Ledger.db) :
  (∀ parts, u ≠ Dispatcher.Broadcast parts) →
  (∀ replied, u ≠ Dispatcher.BroadcastHere replied) →
  let d1 := Dispatcher.handle cfg e user_id u d in
  (∀ v, v ≠ user_id →
     Ledger.users d1 !! v = Ledger.users d !! v
     ∧ Ledger.payments d1 !! v = Ledger.payments d !! v)
  ∧ (∀ row, Ledger.users d !! user_id = Some row →
       ∃ row', Ledger.users d1 !! user_id = Some row'
         ∧ Ledger.created_at row' = Ledger.created_at row)
  ∧ (is_Some (Ledger.payments d !! user_id) →
     is_Some (Ledger.payments d1 !! user_id))
  ∧ (u = Dispatcher.Whoami ∨ u = Dispatcher.Stats ∨ u = Dispatcher.Support
     ∨ u = Dispatcher.Unhandled → d1 = d).
Proof.
  intros Hnot Hnot_here. cbv zeta.
  assert (Hsame : ∀ d1, d1 = d →
    (∀ v, v ≠ user_id →
       Ledger.users d1 !! v = Ledger.users d !! v
       ∧ Ledger.payments d1 !! v = Ledger.payments d !! v)
    ∧ (∀ row, Ledger.users d !! user_id = Some row →
         ∃ row', Ledger.users d1 !! user_id = Some row'
           ∧ Ledger.created_at row' = Ledger.created_at row)
    ∧ (is_Some (Ledger.payments d !! user_id) →
       is_Some (Ledger.payments d1 !! user_id))).
  { intros d1 ->. repeat split; eauto. }
  assert (Hupsert : ∀ d1, d1 = Ledger.upsert_user (now_utc e 0) user_id d →
    (∀ v, v ≠ user_id →
       Ledger.users d1 !! v = Ledger.users d !! v
       ∧ Ledger.payments d1 !! v = Ledger.payments d !! v)
    ∧ (∀ row, Ledger.users d !! user_id = Some row →
         ∃ row', Ledger.users d1 !! user_id = Some row'
           ∧ Ledger.created_at row' = Ledger.created_at row)
    ∧ (is_Some (Ledger.payments d !! user_id) →
       is_Some (Ledger.payments d1 !! user_id))).
  { intros d1 ->. split; [|split; [|done]].
    - intros v Hne. by rewrite users_upsert_user_ne.
    - intros row. apply created_at_upsert_user. }
  destruct u; cbn [Dispatcher.handle].
  - destruct (Hupsert _ (after_cmd_start e user_id d)) as (? & ? & ?).
    do 3 (split; [done|]). by intros [? | [? | [? | ?]]].
  - destruct (Hupsert _ (after_cmd_menu e user_id d)) as (? & ? & ?).
    do 3 (split; [done|]). by intros [? | [? | [? | ?]]].
  - destruct (Hsame _ (eq_refl d)) as (? & ? & ?). by do 3 (split; [done|]).
  - destruct (Hsame _ (after_cmd_stats cfg user_id d)) as (? & ? & ?).
    do 3 (split; [done|]). intros _. apply after_cmd_stats.
  - split; [intros v; apply rows_cb_toggle_sub_ne|].
    split; [intros row; apply created_at_cb_toggle_sub|].
    split; [by rewrite after_cb_toggle_sub | by intros [? | [? | [? | ?]]]].
  - destruct (Hsame _ (eq_refl d)) as (? & ? & ?). by do 3 (split; [done|]).
  - split.
    { intros v Hne. by rewrite users_cb_pay, users_upsert_user_ne, payments_cb_pay_ne. }
    split.
    { intros row. rewrite users_cb_pay. apply created_at_upsert_user. }
    split; [apply payments_cb_pay_kept | by intros [? | [? | [? | ?]]]].
  - destruct (Hupsert _ (after_cb_check e user_id d)) as (? & ? & ?).
    do 3 (split; [done|]). by intros [? | [? | [? | ?]]].
  - destruct (Hupsert _ (after_cb_access e user_id d)) as (? & ? & ?).
    do 3 (split; [done|]). by intros [? | [? | [? | ?]]].
  - by destruct (Hnot parts).
  - by destruct (Hnot_here reply_to_message).
  - destruct (Hsame _ (eq_refl d)) as (? & ? & ?). by do 3 (split; [done|]).
Qed.

(** User 42 of the sample pays again: the reference of subscriber 1 is
    the same, and the row of user 42 keeps its time of creation 5. *)
Lemma handlers_touch_only_the_sender_witness :
  let d1 := Dispatcher.handle Sample.cfg (Sample.answers "pending") 42 Dispatcher.Pay
              Sample.audience in
  Ledger.payments d1 !! 1%Z = Ledger.payments Sample.audience !! 1%Z
  ∧ ∃ row', Ledger.users d1 !! 42%Z = Some row' ∧ Ledger.created_at row' = 5%Z.
Proof.
  intros d1.
  destruct (handlers_touch_only_the_sender Sample.cfg (Sample.answers "pending") 42
              Dispatcher.Pay Sample.audience) as (Hothers & Hself & _);
    [discriminate | discriminate |].
  split.
  - apply Hothers. lia.
  - apply (Hself (Ledger.UserRow false 5 5)). vm_compute. reflexivity.
Defined.

(** ** Start-up *)

Section StartupProperties.
Import Startup.

Lemma startswith_spec needle s :
  startswith needle s = true ↔ ∃ behind, s = needle +:+ behind.
Proof.
  revert s. induction needle as [|a needle IH]; intros s; simpl.
  - split; [by exists s | done].
  - destruct s as [|b s]; simpl.
    + split; [done | by intros [behind ?]].
    + rewrite andb_true_iff, IH. destruct (Ascii.eqb_spec a b) as [-> | Hne].
      * split.
        -- intros [_ [behind ->]]. by exists behind.
        -- intros [behind [= ->]]. split; [done | by exists behind].
      * split; [by intros [? _] | intros [behind [= ? _]]; congruence].
Qed.

Lemma contains_spec needle s :
  contains needle s = true ↔ ∃ before behind, s = before +:+ needle +:+ behind.
Proof.
  induction s as [|c s IH]; simpl; rewrite orb_true_iff, startswith_spec.
  - split.
    + intros [[behind ->] | ?]; [|done]. by exists "", behind.
    + intros (before & behind & Hs). left. destruct before; [|done]. by exists behind.
  - rewrite IH. split.
    + intros [[behind ->] | (before & behind & ->)].
      * by exists "", behind.
      * by exists (String c before), behind.
    + intros (before & behind & Hs). destruct before as [|c' before]; simpl in Hs.
      * left. by exists behind.
      * right. injection Hs as -> ->. by exists before, behind.
Qed.

Lemma unset_filled s : unset s = false ↔ filled s.
Proof.
  unfold unset, filled. rewrite orb_false_iff.
  destruct (String.eqb_spec s "") as [-> | Hne].
  - split; [by intros [? _] | by intros [? _]].
  - destruct (contains "PASTE_" s) eqn:Hcontains.
    + apply contains_spec in Hcontains as (before & behind & ->).
      split; [by intros [_ ?] | intros [_ Hfree]]. by destruct (Hfree before behind).
    + split; [|done]. intros _. split; [done|]. intros before behind ->.
      assert (contains "PASTE_" (before +:+ "PASTE_" +:+ behind) = true) as Hyes
        by (apply contains_spec; eauto).
      congruence.
Qed.

End StartupProperties.

(** X19.  [main] gets past its checks exactly when the bot token, the shop
    id and the shop secret are not empty and contain "PASTE_" nowhere,
    the admin id is not the placeholder 123456789 and the database URL is
    not empty.  The checks come in this order, so that a bad bot token is
    what [main] complains about whatever else is wrong; and after a start
    that got past them the placeholder id is not the admin. *)
Theorem main_checks (cfg : config) (s : Startup.secrets) :
  (Startup.main cfg s = None ↔
     Startup.filled (Startup.BOT_TOKEN s)
     ∧ Startup.filled (Startup.YOO_SHOP_ID s)
     ∧ Startup.filled (Startup.YOO_SECRET s)
     ∧ ADMIN_ID cfg ≠ 123456789%Z
     ∧ Startup.DATABASE_URL s ≠ "")
  ∧ (¬ Startup.filled (Startup.BOT_TOKEN s) →
     Startup.main cfg s = Some Startup.NoBotToken)
  ∧ (Startup.main cfg s = None → Bot.is_admin cfg 123456789 = false).
Proof.
  split; [|split].
  - unfold Startup.main. rewrite <-!unset_filled.
    destruct (Startup.unset (Startup.BOT_TOKEN s)); cbn [orb].
    { split; [done | by intros [? _]]. }
    destruct (Startup.unset (Startup.YOO_SHOP_ID s)); cbn [orb].
    { split; [done | by intros (_ & ? & _)]. }
    destruct (Startup.unset (Startup.YOO_SECRET s)); cbn [orb].
    { split; [done | by intros (_ & _ & ? & _)]. }
    destruct (Z.eqb_spec (ADMIN_ID cfg) 123456789) as [Hadmin | Hadmin].
    { split; [done | by intros (_ & _ & _ & ? & _)]. }
    destruct (String.eqb_spec (Startup.DATABASE_URL s) "") as [Hurl | Hurl].
    { split; [done | by intros (_ & _ & _ & _ & ?)]. }
    split; [by intros _ | done].
  - intros Hbad. unfold Startup.main.
    destruct (Startup.unset (Startup.BOT_TOKEN s)) eqn:Hunset; [done|].
    by apply unset_filled in Hunset.
  - intros Hmain. unfold Bot.is_admin. apply Z.eqb_neq. intros Heq.
    unfold Startup.main in Hmain. rewrite <-Heq, Z.eqb_refl in Hmain.
    by repeat case_match.
Qed.

(** A token that still carries the placeholder stops [main], whatever the
    other settings are. *)
Lemma main_checks_witness :
  Startup.main Sample.cfg
    (Startup.Secrets "123:PASTE_YOUR_TOKEN" "shop" "secret" "postgres://db")
  = Some Startup.NoBotToken.
Proof.
  apply (main_checks Sample.cfg
           (Startup.Secrets "123:PASTE_YOUR_TOKEN" "shop" "secret" "postgres://db")).
  intros [_ Hfree]. apply (Hfree "123:" "YOUR_TOKEN"). reflexivity.
Defined.

(** ** What the answers depend on *)


